(** * Analytical contaminant transport: concentration field model

    A shallow embedding of the two scripts of the repository,
    [2D_contaminant_plot.py] (scatter plot by concentration band) and
    [graph-final.py] (contour plot), and the properties of their common core:
    unit conversion, the three spread functions, the point evaluator, the grid
    sweep, the reflection over the axis y = 0 and the point lookup.

    Numbers.  Python floats are read as exact rationals ([Q]); equality of
    rationals is [Qeq] ([==]).  [scipy.special.erf], [scipy.special.erfc] and
    the float power [x ** (1 / 2)] are library functions outside the
    repository: they are the fields of the interface [Special], with the few
    laws of the mathematical functions that the proofs use.

    Effects.  A float division by zero raises [ZeroDivisionError]; a negative
    float raised to [1 / 2] is a Python [complex].  Both are outcomes of the
    [outcome] monad below. *)

From Stdlib Require Import ZArith QArith Qround Qabs List Bool Lia Lqa Morphisms.
From Stdlib Require String.
Import ListNotations.
Import String.StringSyntax.
Delimit Scope string_scope with string.

Local Open Scope Q_scope.

(** ** Outcomes of a Python expression *)

Inductive exception : Type :=
| ZeroDivisionError
| IndexError.

(** [Returns a]: the expression evaluates to the float (or value) [a].
    [Raises e]: it raises [e], which nothing in the scripts catches.
    [Complex]: the value has left the real numbers: a negative base under
    [** (1 / 2)] is a Python [complex], and so are the quotient by it and its
    [scipy.special.erf] or [erfc], which a spread function returns without an
    error.  Its components, and what [calc_concentration] does with it
    afterwards, are not followed. *)
Inductive outcome (A : Type) : Type :=
| Returns (a : A)
| Raises (e : exception)
| Complex.

Arguments Returns {A} a.
Arguments Raises {A} e.
Arguments Complex {A}.

Definition bind {A B : Type} (m : outcome A) (k : A -> outcome B) : outcome B :=
  match m with
  | Returns a => k a
  | Raises e => Raises e
  | Complex => Complex
  end.

Notation "x <- m ;; k" := (bind m (fun x => k))
  (at level 61, m at next level, right associativity).

(** A [for] loop over [xs] whose body updates the loop state. *)
Fixpoint for_each {A St : Type} (xs : list A) (body : A -> St -> outcome St)
  (st : St) : outcome St :=
  match xs with
  | [] => Returns st
  | x :: rest => st' <- body x st ;; for_each rest body st'
  end.

(** ** The library functions *)

Class Special : Type := {
  erf : Q -> Q;
  erfc : Q -> Q;
  (** [root x] is [x ** (1 / 2)] for a float [x >= 0]. *)
  root : Q -> Q;
  erf_proper :: Proper (Qeq ==> Qeq) erf;
  erfc_proper :: Proper (Qeq ==> Qeq) erfc;
  root_proper :: Proper (Qeq ==> Qeq) root;
  erf_odd : forall q, erf (- q) == - erf q;
  erf_mono : forall q r, q <= r -> erf q <= erf r;
  erf_le_1 : forall q, erf q <= 1;
  erf_at_1 : 21 # 25 <= erf 1;
  erfc_erf : forall q, erfc q == 1 - erf q;
  root_0 : root 0 == 0;
  root_pos : forall q, 0 < q -> 0 < root q;
  root_le : forall q, 0 <= q -> 2 * root q <= q + 1
}.

(** ** Set-up: the three classes *)

Record Source : Type := mkSource {
  width : Q;
  concentration : Q   (* micro-gram per liter *)
}.

Record Material : Type := mkMaterial {
  ax : Q;   (* meters *)
  ay : Q    (* meters *)
}.

Record Well : Type := mkWell {
  dx : Q;   (* meters *)
  dy : Q    (* meters *)
}.

(** ** Unit conversion *)

(** [0.3048] *)
Definition ft_per_m : Q := 381 # 1250.

Definition ft_to_m (ft : Q) : Q := ft / ft_per_m.

(** Modelled from the spec: the inverse conversion [meters_to_feet], which
    multiplies by 0.3048; neither script defines it. *)
Definition meters_to_feet (m : Q) : Q := m * ft_per_m.

(** ** Float operations *)

Definition Qlt_bool (a b : Q) : bool := negb (Qle_bool b a).

(** [x ** (1 / 2)] *)
Definition pow_half `{Special} (x : Q) : outcome Q :=
  if Qlt_bool x 0 then Complex else Returns (root x).

(** [a / b] on floats *)
Definition py_div (a b : Q) : outcome Q :=
  if Qeq_bool b 0 then Raises ZeroDivisionError else Returns (a / b).

(** Rounding to the nearest integer, a tie to the even one: how
    [format(_, '0.2f')] rounds the exact value of a float. *)
Definition round_half_even (q : Q) : Z :=
  let f := Qfloor q in
  match Qcompare (q - inject_Z f) (1 # 2) with
  | Lt => f
  | Gt => (f + 1)%Z
  | Eq => if Z.even f then f else (f + 1)%Z
  end.

(** What [convert_to_volume] returns: the [int] 0, or the text of
    [format(concentration, '0.2f')].  A text with two decimals is kept as its
    number of hundredths. *)
Inductive volume : Type :=
| VInt (n : Z)
| VText (hundredths : Z).

Definition format_02f (x : Q) : volume := VText (round_half_even (x * 100)).

(** [float(v)] *)
Definition float (v : volume) : Q :=
  match v with
  | VInt n => inject_Z n
  | VText h => h # 100
  end.

(** ** Calculating directional spread *)

Section Model.
Context `{Special}.

Definition spread_x_positive (material : Material) (well : Well) (vel_time : Q)
  : outcome Q :=
  let dist_x := dx well in
  let vt := vel_time in
  let a_x := ax material in
  r <- pow_half (a_x * vt) ;;
  arg <- py_div (dist_x - vt) (2 * r) ;;
  Returns (erfc arg).

Definition spread_y_positive (source : Source) (material : Material) (well : Well)
  : outcome Q :=
  let s_width := width source in
  let disperse_y := ay material in
  let dist_x := dx well in
  let dist_y := dy well in
  r <- pow_half (disperse_y * dist_x) ;;
  arg <- py_div (dist_y + s_width / 2) (2 * r) ;;
  Returns (erf arg).

Definition spread_y_negative (source : Source) (material : Material) (well : Well)
  : outcome Q :=
  let s_width := width source in
  let disperse_y := ay material in
  let dist_x := dx well in
  let dist_y := dy well in
  r <- pow_half (disperse_y * dist_x) ;;
  arg <- py_div (dist_y - s_width / 2) (2 * r) ;;
  Returns (erf arg).

(** ** Converting spread to concentration by volume *)

Definition convert_to_volume (source : Source) (value : Q) : volume :=
  let s := concentration source in
  let c := (s / 4) * value in
  if Qle_bool c (1 # 100) then VInt 0 else format_02f c.

Definition calc_concentration (source : Source) (material : Material)
  (well : Well) (vel_time : Q) : outcome Q :=
  spread_x <- spread_x_positive material well vel_time ;;
  spread_y_pos <- spread_y_positive source material well ;;
  spread_y_neg <- spread_y_negative source material well ;;
  let to_convert := spread_x * (spread_y_pos - spread_y_neg) in
  let c := convert_to_volume source to_convert in
  Returns (float c).

End Model.

(** ** The sampling grid *)

(** Python's [range(start, stop, step)] for a positive [step]. *)
Definition range (start stop step : Z) : list Z :=
  map (fun k => (start + step * Z.of_nat k)%Z)
      (seq 0 (Z.to_nat ((stop - start + step - 1) / step))).

(** A recorded sample [[dist_x, dist_y, well_con]]: the coordinates in feet and
    the concentration. *)
Definition coord : Type := (Z * Z * Q)%type.

Definition coord_x (s : coord) : Z := fst (fst s).
Definition coord_y (s : coord) : Z := snd (fst s).
Definition coord_con (s : coord) : Q := snd s.

(** The well of the grid point [(dist_x, dist_y)], given in feet. *)
Definition well_at (dist_x dist_y : Z) : Well :=
  mkWell (ft_to_m (inject_Z dist_x)) (ft_to_m (inject_Z dist_y)).

(** The constants of [main], the same in both scripts. *)
Definition source_1 : Source := mkSource (ft_to_m 200) 1000.
Definition material_1 : Material := mkMaterial (ft_to_m 10) (ft_to_m 6).
Definition velocity_time : Q := ft_to_m 350.

(** [main]'s geometry with a source of 40 micro-gram per liter. *)
Definition weak_source : Source := mkSource (ft_to_m 200) 40.

(** ** graph-final.py: the contour script *)

Module Contour.

Record sweep : Type := mkSweep {
  x_data : list Z;
  y_data : list Z;
  con_data : list Q;
  tri_data : list coord
}.

Definition columns : Type := (list Z * list Z * list Q)%type.

Section Sampler.
Context `{Special}.

Definition get_data (source : Source) (material : Material) (vt : Q)
  : outcome (columns * list coord) :=
  st <- for_each (range 2 450 2) (fun dist_x =>
          for_each (range 0 201 1) (fun dist_y st =>
            let well_1 := well_at dist_x dist_y in
            well_con <- calc_concentration source material well_1 vt ;;
            Returns {| x_data := x_data st ++ [dist_x];
                       y_data := y_data st ++ [dist_y];
                       con_data := con_data st ++ [well_con];
                       tri_data := tri_data st ++ [(dist_x, dist_y, well_con)] |}))
        (mkSweep [] [] [] []) ;;
  Returns ((x_data st, y_data st, con_data st), tri_data st).

End Sampler.

Definition reflect_over_y_axis (d : columns) : columns :=
  let '(x_data, y_data, z_data) := d in
  let inverted_y := fold_left (fun acc value => acc ++ [(- value)%Z]) y_data [] in
  (x_data ++ x_data, y_data ++ inverted_y, z_data ++ z_data).

Definition get_all_coord (data : columns) : columns := reflect_over_y_axis data.

(** The records [create_plot] builds from the three columns: row [i] is
    [(all_x[i], all_y[i], all_z[i])]; a column shorter than [all_x] is an
    [IndexError]. *)
Fixpoint records_from (i : nat) (xs : list Z) (all_y : list Z) (all_z : list Q)
  : outcome (list coord) :=
  match xs with
  | [] => Returns []
  | x :: rest =>
      match nth_error all_y i, nth_error all_z i with
      | Some y, Some z =>
          data <- records_from (S i) rest all_y all_z ;;
          Returns ((x, y, z) :: data)
      | _, _ => Raises IndexError
      end
  end.

Definition records (coordinates : columns) : outcome (list coord) :=
  let '(all_x, all_y, all_z) := coordinates in
  records_from 0 all_x all_y all_z.

(** The checks of the two input loops of [get_specific_concentration]. *)
Definition valid_x (user_x : Z) : bool :=
  (user_x mod 2 =? 0)%Z && (2 <=? user_x)%Z && (user_x <=? 400)%Z.

Definition valid_y (user_y : Z) : bool :=
  (-200 <=? user_y)%Z && (user_y <=? 200)%Z.

(** The search loop of [get_specific_concentration]: [user_con] starts at 0
    and takes the concentration of every pair that matches. *)
Definition find_concentration (user_x user_y : Z) (data : list coord) : Q :=
  fold_left (fun user_con pair =>
               if (user_x =? coord_x pair)%Z && (Z.abs user_y =? coord_y pair)%Z
               then coord_con pair else user_con)
            data 0.

(** One [while True] input loop over the integers typed in, the invalid ones
    skipped; [None] when the input ends first. *)
Fixpoint prompt (valid : Z -> bool) (typed : list Z) : option (Z * list Z) :=
  match typed with
  | [] => None
  | v :: rest => if valid v then Some (v, rest) else prompt valid rest
  end.

(** [get_specific_concentration(data)] on the integers typed in: the
    concentration it prints and the point it returns. *)
Definition get_specific_concentration (data : list coord) (typed : list Z)
  : option (Q * (Z * Z)) :=
  match prompt valid_x typed with
  | None => None
  | Some (user_x, rest) =>
      match prompt valid_y rest with
      | None => None
      | Some (user_y, _) =>
          Some (find_concentration user_x user_y data, (user_x, user_y))
      end
  end.

End Contour.

(** ** 2D_contaminant_plot.py: the scatter script *)

Module Scatter.

Record bands : Type := mkBands {
  over_900 : list coord;
  over_500 : list coord;
  over_300 : list coord;
  over_100 : list coord
}.

(** The [if]/[elif] chain of [get_data] on one evaluated point. *)
Definition record_point (dist_x dist_y : Z) (well_con : Q) (st : bands) : bands :=
  let lst := (dist_x, dist_y, well_con) in
  if Qle_bool 900 well_con then
    {| over_900 := over_900 st ++ [lst]; over_500 := over_500 st;
       over_300 := over_300 st; over_100 := over_100 st |}
  else if Qle_bool 500 well_con then
    {| over_900 := over_900 st; over_500 := over_500 st ++ [lst];
       over_300 := over_300 st; over_100 := over_100 st |}
  else if Qle_bool 300 well_con then
    {| over_900 := over_900 st; over_500 := over_500 st;
       over_300 := over_300 st ++ [lst]; over_100 := over_100 st |}
  else if Qle_bool 100 well_con then
    {| over_900 := over_900 st; over_500 := over_500 st;
       over_300 := over_300 st; over_100 := over_100 st ++ [lst] |}
  else st.

Section Sampler.
Context `{Special}.

Definition get_data (source : Source) (material : Material) (vt : Q)
  : outcome (list (list coord)) :=
  st <- for_each (range 2 450 2) (fun dist_x =>
          for_each (range 0 201 1) (fun dist_y st =>
            let well_1 := well_at dist_x dist_y in
            well_con <- calc_concentration source material well_1 vt ;;
            Returns (record_point dist_x dist_y well_con st)))
        (mkBands [] [] [] []) ;;
  Returns [over_900 st; over_500 st; over_300 st; over_100 st].

End Sampler.

Definition reflect_over_y_axis (d : list coord) : list coord :=
  let use := fold_left (fun use c =>
                          use ++ [(coord_x c, (- coord_y c)%Z, coord_con c)])
                       d [] in
  d ++ use.

Definition get_all_coord (data : list (list coord)) : list (list coord) :=
  map reflect_over_y_axis data.

(** [v in lst] for an integer [v] and a sample [lst = [x, y, con]]: Python
    compares [v] with each of the three items, the float included. *)
Definition item_in (v : Z) (lst : coord) : bool :=
  (v =? coord_x lst)%Z || (v =? coord_y lst)%Z || Qeq_bool (inject_Z v) (coord_con lst).

(** [set(use_set).issubset(lst)] for [use_set = [coord_x, coord_y]]. *)
Definition issubset (use_set : list Z) (lst : coord) : bool :=
  forallb (fun v => item_in v lst) use_set.

Fixpoint search_band (use_set : list Z) (d : list coord) : option Q :=
  match d with
  | [] => None
  | lst :: rest =>
      if issubset use_set lst then Some (coord_con lst) else search_band use_set rest
  end.

(** [None] is Python's [None]: the loops end without a [return]. *)
Fixpoint get_specific_concentration (user_x user_y : Z) (data : list (list coord))
  : option Q :=
  match data with
  | [] => None
  | d :: rest =>
      match search_band [user_x; user_y] d with
      | Some con => Some con
      | None => get_specific_concentration user_x user_y rest
      end
  end.

(** The concentration [main] prints for the point: [None] becomes 0. *)
Definition user_con (user_x user_y : Z) (all_data : list (list coord)) : Q :=
  match get_specific_concentration user_x user_y all_data with
  | Some con => con
  | None => 0
  end.

End Scatter.

(** ** 2D_contaminant_plot.py: the scatter plot *)

Module ScatterPlot.

(** What stops [create_plot]: the unpacking [x, y, con = zip( *amounts)] of a
    band without samples ([zip()] yields nothing: "not enough values to
    unpack"), or [all_x[i]] past the last band. *)
Inductive error : Type :=
| ValueError
| IndexError.

(** One call [plot.scatter(all_x[i], all_y[i], color=colors[i], label=labels[i])]. *)
Record series : Type := mkSeries {
  xs : list Z;
  ys : list Z;
  color : String.string;
  label : String.string
}.

Definition colors : list String.string :=
  ["red"; "orange"; "yellow"; "green"]%string.

Definition labels : list String.string :=
  ["901+"; "501-900"; "301-500"; "100-300"]%string.

(** [x, y, con = zip( *amounts)] *)
Definition unpack (amounts : list coord) : error + (list Z * list Z * list Q) :=
  match amounts with
  | [] => inl ValueError
  | _ => inr (map coord_x amounts, map coord_y amounts, map coord_con amounts)
  end.

(** The first loop: [all_x] and [all_y], one entry per band. *)
Fixpoint collect (coordinates : list (list coord)) (all_x all_y : list (list Z))
  : error + (list (list Z) * list (list Z)) :=
  match coordinates with
  | [] => inr (all_x, all_y)
  | amounts :: rest =>
      match unpack amounts with
      | inl e => inl e
      | inr (x, y, _) => collect rest (all_x ++ [x]) (all_y ++ [y])
      end
  end.

(** The second loop, [for i in range(4)], over the indices [indices]. *)
Fixpoint scatter_calls (indices : list nat) (all_x all_y : list (list Z))
  : error + list series :=
  match indices with
  | [] => inr []
  | i :: rest =>
      match nth_error all_x i, nth_error all_y i,
            nth_error colors i, nth_error labels i with
      | Some x, Some y, Some c, Some l =>
          match scatter_calls rest all_x all_y with
          | inl e => inl e
          | inr calls => inr (mkSeries x y c l :: calls)
          end
      | _, _, _, _ => inl IndexError
      end
  end.

(** [create_plot(coordinates)], up to the calls of [plot.scatter]; the axis
    labels, the legend and the title that follow take no data. *)
Definition create_plot (coordinates : list (list coord)) : error + list series :=
  match collect coordinates [] [] with
  | inl e => inl e
  | inr (all_x, all_y) => scatter_calls (seq 0 4) all_x all_y
  end.

End ScatterPlot.

(** ** The claim's formula, in its own words *)

Section Formula.
Context `{Special}.

(** [raw = erfc((x - vt) / (2·sqrt(ax·vt))) ×
          (erf((y + width/2) / (2·sqrt(ay·x))) − erf((y − width/2) / (2·sqrt(ay·x))))] *)
Definition raw_spread (source : Source) (material : Material) (well : Well) (vt : Q) : Q :=
  erfc ((dx well - vt) / (2 * root (ax material * vt)))
  * (erf ((dy well + width source / 2) / (2 * root (ay material * dx well)))
     - erf ((dy well - width source / 2) / (2 * root (ay material * dx well)))).

(** The concentration of the grid point [(dist_x, dist_y)], given in feet. *)
Definition grid_concentration (source : Source) (material : Material) (vt : Q)
  (dist_x dist_y : Z) : Q :=
  float (convert_to_volume source (raw_spread source material (well_at dist_x dist_y) vt)).

(** The sample recorded for the grid point [p]. *)
Definition grid_sample (source : Source) (material : Material) (vt : Q)
  (p : Z * Z) : coord :=
  (fst p, snd p, grid_concentration source material vt (fst p) (snd p)).

End Formula.

(** The even feet abscissas 2, 4, ..., 448 and the ordinates of the half
    plane and of the full field. *)
Definition on_grid_x (x : Z) : Prop := (2 <= x <= 448)%Z /\ Z.even x = true.
Definition on_half_y (y : Z) : Prop := (0 <= y <= 200)%Z.
Definition on_full_y (y : Z) : Prop := (-200 <= y <= 200)%Z.

(** The half-plane grid in the order of the two nested loops. *)
Definition half_grid : list (Z * Z) :=
  flat_map (fun dist_x => map (fun dist_y => (dist_x, dist_y)) (range 0 201 1))
           (range 2 450 2).

(** The position, in the result of [get_data] of [2D_contaminant_plot.py], of
    the band list that takes a concentration: 0 for [over_900], ..., 3 for
    [over_100]; none below 100. *)
Definition band_bounds (i : nat) (c : Q) : Prop :=
  match i with
  | 0%nat => 900 <= c
  | 1%nat => 500 <= c /\ c < 900
  | 2%nat => 300 <= c /\ c < 500
  | 3%nat => 100 <= c /\ c < 300
  | _ => False
  end.

(** The call fails fast: it raises an exception. *)
Definition fails_fast {A : Type} (o : outcome A) : Prop := exists e, o = Raises e.

(** The sample [(x, y, c)] reflected over the axis y = 0. *)
Definition mirror (s : coord) : coord := (coord_x s, (- coord_y s)%Z, coord_con s).

(** ** A rational instance of the library functions

    Piecewise-linear stand-ins with the laws of [Special], to run the model on
    concrete inputs: the identity clamped to [-1, 1] for [erf], and the mean
    of [x] and 1 (one Newton step from 1) for the root. *)

Definition sample_erf (q : Q) : Q :=
  if Qle_bool q (-1) then -1 else if Qle_bool 1 q then 1 else q.

Definition sample_erfc (q : Q) : Q := 1 - sample_erf q.

Definition sample_root (q : Q) : Q :=
  if Qle_bool q 0 then 0 else (q + 1) * (1 # 2).

(** * Properties *)

(** ** The model on small inputs *)

Example range_by_2 : range 2 10 2 = [2; 4; 6; 8]%Z.
Proof. reflexivity. Qed.

Example range_empty : range 5 5 1 = [].
Proof. reflexivity. Qed.

(** [format(0.125, '0.2f')] is ['0.12'] and [format(0.375, '0.2f')] is
    ['0.38']: a tie goes to the even hundredth. *)
Example format_02f_ties :
  format_02f (1 # 8) = VText 12 /\ format_02f (3 # 8) = VText 38.
Proof. split; reflexivity. Qed.

Example convert_to_volume_small :
  convert_to_volume source_1 (1 # 100000) = VInt 0 /\
  convert_to_volume source_1 (2 # 5) = VText 10000.
Proof. split; reflexivity. Qed.

Example issubset_any_position :
  Scatter.issubset [4; 2]%Z (2%Z, 4%Z, 950) = true /\
  Scatter.issubset [100; 2]%Z (2%Z, 0%Z, 100) = true /\
  Scatter.issubset [4; 2]%Z (4%Z, 3%Z, 950) = false.
Proof. repeat split. Qed.

(** ** Comparisons on rationals *)

Lemma Qle_bool_false (a b : Q) : Qle_bool a b = false -> b < a.
Proof.
  intros E. apply Qnot_le_lt. intros L.
  apply Qle_bool_iff in L. congruence.
Qed.

Lemma Qlt_bool_true (a b : Q) : Qlt_bool a b = true <-> a < b.
Proof.
  unfold Qlt_bool. split.
  - intros E. apply Qle_bool_false. now destruct (Qle_bool b a).
  - intros L. destruct (Qle_bool b a) eqn:E; [|reflexivity].
    apply Qle_bool_iff in E. lra.
Qed.

Lemma Qlt_bool_false (a b : Q) : Qlt_bool a b = false <-> b <= a.
Proof.
  unfold Qlt_bool. rewrite <- Qle_bool_iff. now destruct (Qle_bool b a).
Qed.

Lemma Qeq_bool_false (a b : Q) : Qeq_bool a b = false <-> ~ a == b.
Proof.
  split.
  - intros E L. apply Qeq_bool_iff in L. congruence.
  - intros N. destruct (Qeq_bool a b) eqn:E; [|reflexivity].
    apply Qeq_bool_iff in E. contradiction.
Qed.

(** Destructs the boolean comparisons of the goal into their propositions. *)
Ltac qbool :=
  repeat match goal with
  | |- context [Qle_bool ?a ?b] =>
      let E := fresh "E" in
      destruct (Qle_bool a b) eqn:E;
      [apply Qle_bool_iff in E | apply Qle_bool_false in E]
  | |- context [Qeq_bool ?a ?b] =>
      let E := fresh "E" in
      destruct (Qeq_bool a b) eqn:E;
      [apply Qeq_bool_iff in E | apply Qeq_bool_false in E]
  end.

(** ** Rounding *)

Lemma round_half_even_near (q : Q) :
  Qabs (q - inject_Z (round_half_even q)) <= 1 # 2.
Proof.
  unfold round_half_even.
  pose proof (Qfloor_le q) as Hlo.
  pose proof (Qlt_floor q) as Hhi.
  rewrite inject_Z_plus in Hhi. change (inject_Z 1) with 1 in Hhi.
  apply Qabs_Qle_condition.
  destruct (Qcompare (q - inject_Z (Qfloor q)) (1 # 2)) eqn:C.
  - apply Qeq_alt in C.
    destruct (Z.even (Qfloor q)).
    + lra.
    + rewrite inject_Z_plus. change (inject_Z 1) with 1. lra.
  - apply Qlt_alt in C. lra.
  - apply Qgt_alt in C. rewrite inject_Z_plus. change (inject_Z 1) with 1. lra.
Qed.

Lemma round_half_even_ge_1 (q : Q) : 1 < q -> (1 <= round_half_even q)%Z.
Proof.
  intros L. unfold round_half_even.
  assert (F : (1 <= Qfloor q)%Z).
  { change 1%Z with (Qfloor 1). apply Qfloor_resp_le. lra. }
  destruct (Qcompare _ _); [destruct (Z.even _)|..]; lia.
Qed.

#[export] Instance round_half_even_proper : Proper (Qeq ==> eq) round_half_even.
Proof.
  intros a b E. unfold round_half_even.
  rewrite (Qfloor_comp _ _ E).
  assert (C : Qcompare (a - inject_Z (Qfloor b)) (1 # 2)
              = Qcompare (b - inject_Z (Qfloor b)) (1 # 2)).
  { apply Qcompare_comp; [now rewrite E | reflexivity]. }
  now rewrite C.
Qed.

Lemma Qmake_100 (h : Z) : h # 100 == inject_Z h / 100.
Proof. unfold Qeq, Qdiv, Qmult, Qinv, inject_Z; simpl. lia. Qed.

Section Evaluator.
Context `{Special}.

#[export] Instance convert_to_volume_proper (source : Source) :
  Proper (Qeq ==> eq) (convert_to_volume source).
Proof.
  intros a b E. unfold convert_to_volume, format_02f.
  assert (E' : concentration source / 4 * a == concentration source / 4 * b)
    by now rewrite E.
  rewrite (Qleb_comp _ _ E' _ _ (Qeq_refl _)).
  destruct (Qle_bool _ _); [reflexivity|].
  f_equal. apply round_half_even_proper. now rewrite E'.
Qed.

(** C2. [convert_to_volume] computes [(source.concentration / 4) * value];
    when that is at most 0.01 it returns the integer 0, and otherwise the text
    of the value with two decimals: a number of hundredths within half a
    hundredth of the value. *)
Theorem convert_to_volume_threshold_round (source : Source) (value : Q) :
  let c := concentration source / 4 * value in
  (c <= 1 # 100 -> convert_to_volume source value = VInt 0) /\
  (1 # 100 < c ->
     exists h : Z,
       convert_to_volume source value = VText h /\
       float (VText h) == inject_Z h / 100 /\
       Qabs (c - float (VText h)) <= 1 # 200).
Proof.
  cbv zeta. unfold convert_to_volume. split; intros L.
  - qbool; [reflexivity | exfalso; lra].
  - qbool; [exfalso; lra|].
    exists (round_half_even (concentration source / 4 * value * 100)).
    split; [reflexivity|]. split; [apply Qmake_100|].
    simpl float. rewrite Qmake_100.
    setoid_replace (inject_Z (round_half_even (concentration source / 4 * value * 100)) / 100)
      with (inject_Z (round_half_even (concentration source / 4 * value * 100)) * (1 # 100))
      by reflexivity.
    pose proof (round_half_even_near (concentration source / 4 * value * 100)) as N.
    apply Qabs_Qle_condition in N. apply Qabs_Qle_condition.
    set (r := inject_Z (round_half_even _)) in *. clearbody r.
    set (c := concentration source / 4 * value) in *. clearbody c. lra.
Qed.

Lemma converted_value_range (source : Source) (value : Q) :
  float (convert_to_volume source value) = 0 \/
  1 # 100 <= float (convert_to_volume source value).
Proof.
  unfold convert_to_volume.
  qbool; [now left | right].
  simpl. unfold Qle; simpl.
  assert (L : 1 < concentration source / 4 * value * 100).
  { set (c := concentration source / 4 * value) in *. clearbody c. lra. }
  apply round_half_even_ge_1 in L. lia.
Qed.

(** C10. The value read back from [convert_to_volume] is 0 or at least 0.01,
    never strictly in between; so is every value [calc_concentration] returns. *)
Theorem concentration_never_between_0_and_threshold (source : Source) :
  (forall value : Q,
     float (convert_to_volume source value) = 0 \/
     1 # 100 <= float (convert_to_volume source value)) /\
  (forall (material : Material) (well : Well) (vel_time : Q),
     match calc_concentration source material well vel_time with
     | Returns c => c = 0 \/ 1 # 100 <= c
     | _ => True
     end).
Proof.
  split; [apply converted_value_range|].
  intros material well vel_time. unfold calc_concentration.
  destruct (spread_x_positive _ _ _); simpl; trivial.
  destruct (spread_y_positive _ _ _); simpl; trivial.
  destruct (spread_y_negative _ _ _); simpl; trivial.
  apply converted_value_range.
Qed.

End Evaluator.

(** ** Unit conversion *)

(** C9. Converting with [ft_to_m] (a division by 0.3048) and back with the
    inverse conversion (a multiplication by 0.3048) gives the value again,
    exactly over the rationals. *)
Theorem ft_to_m_round_trip (v : Q) : meters_to_feet (ft_to_m v) == v.
Proof.
  unfold meters_to_feet, ft_to_m, ft_per_m. field.
Qed.

(** ** The float operations *)

Lemma Returns_inj {A : Type} (a b : A) : Returns a = Returns b -> a = b.
Proof. now intros [= ->]. Qed.

Section FloatOps.
Context `{Special}.

Lemma pow_half_pos (x : Q) : 0 < x -> pow_half x = Returns (root x).
Proof.
  intros L. unfold pow_half.
  assert (E : Qlt_bool x 0 = false) by (apply Qlt_bool_false; lra).
  now rewrite E.
Qed.

Lemma pow_half_zero (x : Q) : x == 0 -> pow_half x = Returns (root x).
Proof.
  intros L. unfold pow_half.
  assert (E : Qlt_bool x 0 = false) by (apply Qlt_bool_false; lra).
  now rewrite E.
Qed.

Lemma pow_half_neg (x : Q) : x < 0 -> pow_half x = Complex.
Proof.
  intros L. unfold pow_half.
  assert (E : Qlt_bool x 0 = true) by now apply Qlt_bool_true.
  now rewrite E.
Qed.

Lemma py_div_by_nonzero (a b : Q) : ~ b == 0 -> py_div a b = Returns (a / b).
Proof.
  intros N. unfold py_div. apply Qeq_bool_false in N. now rewrite N.
Qed.

Lemma py_div_by_zero (a b : Q) : b == 0 -> py_div a b = Raises ZeroDivisionError.
Proof.
  intros E. unfold py_div. apply Qeq_bool_iff in E. now rewrite E.
Qed.

(** The division [num / (2 * x ** (1 / 2))] that opens the three spread
    functions, by the sign of [x]; [k] is the rest of the function. *)
Lemma quotient_pos {A : Type} (num x : Q) (k : Q -> outcome A) :
  0 < x ->
  (r <- pow_half x ;; arg <- py_div num (2 * r) ;; k arg) = k (num / (2 * root x)).
Proof.
  intros L. rewrite (pow_half_pos _ L). simpl.
  rewrite py_div_by_nonzero; [reflexivity|].
  pose proof (root_pos x L). lra.
Qed.

Lemma quotient_zero {A : Type} (num x : Q) (k : Q -> outcome A) :
  x == 0 ->
  (r <- pow_half x ;; arg <- py_div num (2 * r) ;; k arg) = Raises ZeroDivisionError.
Proof.
  intros E. rewrite (pow_half_zero _ E). simpl.
  rewrite py_div_by_zero; [reflexivity|].
  rewrite E, root_0. reflexivity.
Qed.

Lemma quotient_neg {A : Type} (num x : Q) (k : Q -> outcome A) :
  x < 0 ->
  (r <- pow_half x ;; arg <- py_div num (2 * r) ;; k arg) = Complex.
Proof.
  intros L. now rewrite (pow_half_neg _ L).
Qed.

Lemma Qmult_pos (a b : Q) : 0 < a -> 0 < b -> 0 < a * b.
Proof.
  intros A B. setoid_replace 0 with (0 * b) by ring.
  now apply Qmult_lt_compat_r.
Qed.

Lemma calc_concentration_returns
  (source : Source) (material : Material) (well : Well) (vt : Q) :
  0 < dx well -> 0 < vt -> 0 < ax material -> 0 < ay material ->
  calc_concentration source material well vt
  = Returns (float (convert_to_volume source (raw_spread source material well vt))).
Proof.
  intros Hx Hvt Hax Hay.
  unfold calc_concentration, spread_x_positive, spread_y_positive, spread_y_negative.
  cbv zeta. rewrite !quotient_pos by now apply Qmult_pos.
  reflexivity.
Qed.

(** C1. For a well with [x > 0], a travel distance [vt > 0] and positive
    dispersivities, [calc_concentration] returns what [convert_to_volume]
    (the product with [source.concentration / 4], then the threshold and the
    rounding) makes of
    [raw = erfc((x - vt) / (2·sqrt(ax·vt))) ×
           (erf((y + width/2) / (2·sqrt(ay·x))) − erf((y − width/2) / (2·sqrt(ay·x))))]. *)
Theorem calc_concentration_formula
  (source : Source) (material : Material) (well : Well) (vt : Q) :
  0 < dx well -> 0 < vt -> 0 < ax material -> 0 < ay material ->
  calc_concentration source material well vt
  = Returns (float (convert_to_volume source (raw_spread source material well vt))).
Proof.
  intros Hx Hvt Hax Hay.
  unfold calc_concentration, spread_x_positive, spread_y_positive, spread_y_negative.
  cbv zeta. rewrite !quotient_pos by now apply Qmult_pos.
  reflexivity.
Qed.

(** C6, as the code has it.  The spread functions test none of their
    arguments.  [spread_x_positive] never looks at the sign of [x]: it returns
    a value for every [x] when [ax·vt > 0].  Each function raises
    [ZeroDivisionError], in its division, when the product under the root is
    zero ([ax·vt], or [ay·x] for the two lateral functions), and goes on with a
    complex number, without an error, when that product is negative. *)
Theorem spread_functions_unguarded
  (source : Source) (material : Material) (well : Well) (vt : Q) :
  (0 < ax material * vt ->
     spread_x_positive material well vt
     = Returns (erfc ((dx well - vt) / (2 * root (ax material * vt))))) /\
  (ax material * vt == 0 ->
     spread_x_positive material well vt = Raises ZeroDivisionError) /\
  (ax material * vt < 0 -> spread_x_positive material well vt = Complex) /\
  (ay material * dx well == 0 ->
     spread_y_positive source material well = Raises ZeroDivisionError /\
     spread_y_negative source material well = Raises ZeroDivisionError) /\
  (ay material * dx well < 0 ->
     spread_y_positive source material well = Complex /\
     spread_y_negative source material well = Complex).
Proof.
  unfold spread_x_positive, spread_y_positive, spread_y_negative. cbv zeta.
  split; [|split; [|split; [|split]]]; intros L.
  - now rewrite quotient_pos.
  - now rewrite quotient_zero.
  - now rewrite quotient_neg.
  - now rewrite !quotient_zero.
  - now rewrite !quotient_neg.
Qed.

End FloatOps.

(** ** The rational instance *)

Lemma sample_erf_proper : Proper (Qeq ==> Qeq) sample_erf.
Proof.
  intros a b E. unfold sample_erf.
  rewrite (Qleb_comp _ _ E _ _ (Qeq_refl (-1))).
  rewrite (Qleb_comp _ _ (Qeq_refl 1) _ _ E).
  now destruct (Qle_bool b (-1)), (Qle_bool 1 b).
Qed.

Lemma sample_root_proper : Proper (Qeq ==> Qeq) sample_root.
Proof.
  intros a b E. unfold sample_root.
  rewrite (Qleb_comp _ _ E _ _ (Qeq_refl 0)).
  destruct (Qle_bool b 0); [reflexivity | now rewrite E].
Qed.

Lemma sample_erf_odd (q : Q) : sample_erf (- q) == - sample_erf q.
Proof. unfold sample_erf. qbool; lra. Qed.

Lemma sample_erf_mono (q r : Q) : q <= r -> sample_erf q <= sample_erf r.
Proof. intros L. unfold sample_erf. qbool; lra. Qed.

Lemma sample_erf_le_1 (q : Q) : sample_erf q <= 1.
Proof. unfold sample_erf. qbool; lra. Qed.

Lemma sample_root_pos (q : Q) : 0 < q -> 0 < sample_root q.
Proof. intros L. unfold sample_root. qbool; lra. Qed.

Lemma sample_root_le (q : Q) : 0 <= q -> 2 * sample_root q <= q + 1.
Proof. intros L. unfold sample_root. qbool; lra. Qed.

Definition sample_special : Special := {|
  erf := sample_erf;
  erfc := sample_erfc;
  root := sample_root;
  erf_proper := sample_erf_proper;
  erfc_proper := fun a b E => Qminus_comp 1 1 (Qeq_refl 1) _ _ (sample_erf_proper a b E) : sample_erfc a == sample_erfc b;
  root_proper := sample_root_proper;
  erf_odd := sample_erf_odd;
  erf_mono := sample_erf_mono;
  erf_le_1 := sample_erf_le_1;
  erf_at_1 := ltac:(vm_compute; discriminate);
  erfc_erf := fun q => Qeq_refl (1 - sample_erf q);
  root_0 := ltac:(reflexivity);
  root_pos := sample_root_pos;
  root_le := sample_root_le
|}.

(** ** The grid *)

Lemma in_range (start stop step x : Z) :
  (0 < step)%Z ->
  In x (range start stop step) <->
  (start <= x < stop)%Z /\ ((x - start) mod step = 0)%Z.
Proof.
  intros Hstep. unfold range. rewrite in_map_iff.
  set (n := ((stop - start + step - 1) / step)%Z).
  assert (Hn : (step * n <= stop - start + step - 1 < step * (n + 1))%Z).
  { unfold n. pose proof (Z.mul_div_le (stop - start + step - 1) step Hstep).
    pose proof (Z.mul_succ_div_gt (stop - start + step - 1) step Hstep). lia. }
  split.
  - intros (k & <- & Hk). apply in_seq in Hk.
    assert (Hkn : (Z.of_nat k < n)%Z) by lia.
    split; [nia|].
    replace (start + step * Z.of_nat k - start)%Z with (Z.of_nat k * step)%Z by lia.
    apply Z_mod_mult.
  - intros (Hx & Hm).
    apply Z.mod_divide in Hm; [|lia]. destruct Hm as (q & Hq).
    assert (Hq0 : (0 <= q)%Z) by nia.
    assert (Hqn : (q < n)%Z) by nia.
    exists (Z.to_nat q). split; [lia|].
    apply in_seq. lia.
Qed.

Lemma in_range_x (x : Z) : In x (range 2 450 2) <-> on_grid_x x.
Proof.
  rewrite in_range by lia. unfold on_grid_x.
  rewrite Z.even_spec.
  split.
  - intros (Hx & Hm). apply Z.mod_divide in Hm; [|lia].
    destruct Hm as (q & Hq). split; [lia|]. exists (q + 1)%Z. lia.
  - intros (Hx & (q & Hq)). split; [lia|].
    replace (x - 2)%Z with ((q - 1) * 2)%Z by lia. apply Z_mod_mult.
Qed.

Lemma in_range_y (y : Z) : In y (range 0 201 1) <-> on_half_y y.
Proof.
  rewrite in_range by lia. unfold on_half_y.
  rewrite Z.mod_1_r. intuition lia.
Qed.

Lemma in_half_grid (x y : Z) : In (x, y) half_grid <-> on_grid_x x /\ on_half_y y.
Proof.
  unfold half_grid. rewrite in_flat_map, <- in_range_x, <- in_range_y.
  split.
  - intros (x' & Hx & Hy). apply in_map_iff in Hy.
    destruct Hy as (y' & E & Hy). now inversion E; subst.
  - intros (Hx & Hy). exists x. split; [exact Hx|].
    apply in_map_iff. now exists y.
Qed.

(** ** Loops *)

Lemma for_each_fold {A St : Type} (xs : list A) (body : A -> St -> outcome St)
  (f : St -> A -> St) :
  (forall x st, In x xs -> body x st = Returns (f st x)) ->
  forall st, for_each xs body st = Returns (fold_left f xs st).
Proof.
  induction xs as [|x xs IH]; intros Hbody st; [reflexivity|].
  simpl. rewrite Hbody by now left. simpl.
  apply IH. intros x' st' Hin. apply Hbody. now right.
Qed.

Lemma fold_left_map {A B St : Type} (f : St -> B -> St) (g : A -> B)
  (xs : list A) (st : St) :
  fold_left f (map g xs) st = fold_left (fun st x => f st (g x)) xs st.
Proof.
  revert st. induction xs as [|x xs IH]; intros st; [reflexivity|].
  simpl. apply IH.
Qed.

Lemma fold_left_nested {A B St : Type} (f : St -> A * B -> St)
  (xs : list A) (ys : list B) (st : St) :
  fold_left (fun st x => fold_left (fun st y => f st (x, y)) ys st) xs st
  = fold_left f (flat_map (fun x => map (fun y => (x, y)) ys) xs) st.
Proof.
  revert st. induction xs as [|x xs IH]; intros st; [reflexivity|].
  simpl. rewrite fold_left_app, fold_left_map. apply IH.
Qed.

Lemma fold_left_snoc_map {A B : Type} (g : A -> B) (xs : list A) (acc : list B) :
  fold_left (fun acc x => acc ++ [g x]) xs acc = acc ++ map g xs.
Proof.
  revert acc. induction xs as [|x xs IH]; intros acc; simpl.
  - now rewrite app_nil_r.
  - rewrite IH, <- app_assoc. reflexivity.
Qed.

(** ** The grid sweep *)

Lemma ft_to_m_pos (q : Q) : 0 < q -> 0 < ft_to_m q.
Proof.
  intros L. unfold ft_to_m, Qdiv.
  setoid_replace 0 with (0 * / ft_per_m) by ring.
  apply Qmult_lt_compat_r; [reflexivity | exact L].
Qed.

Lemma ft_to_m_opp (q : Q) : ft_to_m (- q) == - ft_to_m q.
Proof. unfold ft_to_m, ft_per_m. field. Qed.

Section Sweep.
Context `{Special}.
Variables (source : Source) (material : Material) (vt : Q).
Hypothesis vt_pos : 0 < vt.
Hypothesis ax_pos : 0 < ax material.
Hypothesis ay_pos : 0 < ay material.

Lemma calc_on_grid (x y : Z) :
  on_grid_x x ->
  calc_concentration source material (well_at x y) vt
  = Returns (grid_concentration source material vt x y).
Proof.
  intros (Hx & _). apply calc_concentration_returns; trivial.
  simpl. apply ft_to_m_pos.
  change 0 with (inject_Z 0). rewrite <- Zlt_Qlt. lia.
Qed.

Let gc (p : Z * Z) : Q := grid_concentration source material vt (fst p) (snd p).

Let contour_step (st : Contour.sweep) (p : Z * Z) : Contour.sweep :=
  {| Contour.x_data := Contour.x_data st ++ [fst p];
     Contour.y_data := Contour.y_data st ++ [snd p];
     Contour.con_data := Contour.con_data st ++ [gc p];
     Contour.tri_data := Contour.tri_data st ++ [grid_sample source material vt p] |}.

Lemma contour_sweep (g : list (Z * Z)) (st : Contour.sweep) :
  fold_left contour_step g st
  = {| Contour.x_data := Contour.x_data st ++ map fst g;
       Contour.y_data := Contour.y_data st ++ map snd g;
       Contour.con_data := Contour.con_data st ++ map gc g;
       Contour.tri_data := Contour.tri_data st ++ map (grid_sample source material vt) g |}.
Proof.
  revert st. induction g as [|p g IH]; intros st; simpl.
  - rewrite !app_nil_r. now destruct st.
  - rewrite IH. simpl. now rewrite <- !app_assoc.
Qed.

(** The sweep of [graph-final.py] returns, and records the grid points in
    the order of its loops. *)
Lemma contour_get_data :
  Contour.get_data source material vt
  = Returns ((map fst half_grid, map snd half_grid, map gc half_grid),
             map (grid_sample source material vt) half_grid).
Proof.
  unfold Contour.get_data.
  rewrite (for_each_fold _ _
             (fun st x => fold_left (fun st y => contour_step st (x, y))
                                    (range 0 201 1) st)).
  - cbv beta iota delta [bind]. rewrite (fold_left_nested contour_step). fold half_grid.
    rewrite contour_sweep. reflexivity.
  - intros x st Hx. apply in_range_x in Hx.
    apply (for_each_fold _ _ (fun st y => contour_step st (x, y))).
    intros y st' _. now rewrite calc_on_grid.
Qed.

Let scatter_step (st : Scatter.bands) (p : Z * Z) : Scatter.bands :=
  Scatter.record_point (fst p) (snd p) (gc p) st.

Let kept (st : Scatter.bands) : list coord :=
  concat [Scatter.over_900 st; Scatter.over_500 st; Scatter.over_300 st;
          Scatter.over_100 st].

Lemma record_point_kept (x y : Z) (c : Q) (st : Scatter.bands) (s : coord) :
  In s (kept (Scatter.record_point x y c st)) <->
  In s (kept st) \/ (s = (x, y, c) /\ 100 <= c).
Proof.
  unfold kept, Scatter.record_point. qbool; simpl;
    rewrite ?app_nil_r, ?in_app_iff; simpl; intuition (try lra; subst; auto).
Qed.

Lemma scatter_sweep (g : list (Z * Z)) (st : Scatter.bands) (s : coord) :
  In s (kept (fold_left scatter_step g st)) <->
  In s (kept st) \/
  (In s (map (grid_sample source material vt) g) /\ 100 <= coord_con s).
Proof.
  revert st. induction g as [|p g IH]; intros st; simpl.
  - tauto.
  - rewrite IH. unfold scatter_step. rewrite record_point_kept.
    unfold grid_sample, gc, coord_con. simpl snd.
    intuition (subst; auto).
Qed.

(** The sweep of [2D_contaminant_plot.py] returns, and keeps the samples of
    the grid points whose concentration is at least 100. *)
Lemma scatter_get_data :
  exists data : list (list coord),
    Scatter.get_data source material vt = Returns data /\
    length data = 4%nat /\
    forall s : coord,
      In s (concat data) <->
      In s (map (grid_sample source material vt) half_grid) /\ 100 <= coord_con s.
Proof.
  unfold Scatter.get_data.
  rewrite (for_each_fold _ _
             (fun st x => fold_left (fun st y => scatter_step st (x, y))
                                    (range 0 201 1) st)).
  - cbv beta iota delta [bind]. rewrite (fold_left_nested scatter_step). fold half_grid.
    eexists. split; [reflexivity|]. split; [reflexivity|].
    intros s. fold (kept (fold_left scatter_step half_grid (Scatter.mkBands [] [] [] []))).
    rewrite scatter_sweep.
    change (kept (Scatter.mkBands [] [] [] [])) with (@nil coord).
    split; [intros [[]|K]; exact K | intros K; right; exact K].
  - intros x st Hx. apply in_range_x in Hx.
    apply (for_each_fold _ _ (fun st y => scatter_step st (x, y))).
    intros y st' _. now rewrite calc_on_grid.
Qed.

End Sweep.

(** ** Reflection over the axis y = 0 *)

Lemma mirror_involutive (s : coord) : mirror (mirror s) = s.
Proof.
  destruct s as [[x y] c]. unfold mirror, coord_x, coord_y, coord_con. simpl.
  now rewrite Z.opp_involutive.
Qed.

Lemma scatter_reflect (d : list coord) :
  Scatter.reflect_over_y_axis d = d ++ map mirror d.
Proof.
  unfold Scatter.reflect_over_y_axis. f_equal.
  apply (fold_left_snoc_map mirror d []).
Qed.

Lemma in_mirrored (d : list coord) (s : coord) :
  In s (d ++ map mirror d) <-> In (mirror s) (d ++ map mirror d).
Proof.
  rewrite !in_app_iff, !in_map_iff. split.
  - intros [K | (s0 & <- & K)].
    + right. now exists s.
    + left. now rewrite mirror_involutive.
  - intros [K | (s0 & E & K)].
    + right. exists (mirror s). split; [apply mirror_involutive | exact K].
    + left. rewrite <- (mirror_involutive s), <- E, mirror_involutive. exact K.
Qed.

Lemma contour_reflect (xs ys : list Z) (zs : list Q) :
  Contour.reflect_over_y_axis (xs, ys, zs)
  = (xs ++ xs, ys ++ map Z.opp ys, zs ++ zs).
Proof.
  unfold Contour.reflect_over_y_axis. do 3 f_equal.
  apply (fold_left_snoc_map Z.opp ys []).
Qed.

(** The rows of three columns of one length. *)
Lemma records_from_rows (xs : list Z) :
  forall (i : nat) (ys pre_y : list Z) (zs pre_z : list Q),
    length pre_y = i -> length pre_z = i ->
    length ys = length xs -> length zs = length xs ->
    Contour.records_from i xs (pre_y ++ ys) (pre_z ++ zs)
    = Returns (combine (combine xs ys) zs).
Proof.
  induction xs as [|x xs IH]; intros i ys pre_y zs pre_z Hi Hi' Hy Hz;
    [reflexivity|].
  destruct ys as [|y ys]; [discriminate|]. destruct zs as [|z zs]; [discriminate|].
  simpl Contour.records_from.
  rewrite !nth_error_app2 by lia.
  rewrite Hi, Hi', Nat.sub_diag. simpl nth_error. cbv beta iota.
  replace (pre_y ++ y :: ys) with ((pre_y ++ [y]) ++ ys) by now rewrite <- app_assoc.
  replace (pre_z ++ z :: zs) with ((pre_z ++ [z]) ++ zs) by now rewrite <- app_assoc.
  rewrite IH.
  - reflexivity.
  - rewrite length_app. simpl. lia.
  - rewrite length_app. simpl. lia.
  - simpl in Hy. lia.
  - simpl in Hz. lia.
Qed.

Lemma combine_append {A B : Type} (a a' : list A) (b b' : list B) :
  length a = length b ->
  combine (a ++ a') (b ++ b') = combine a b ++ combine a' b'.
Proof.
  revert b. induction a as [|x a IH]; intros [|y b] E; try discriminate; simpl.
  - reflexivity.
  - f_equal. apply IH. simpl in E. lia.
Qed.

Lemma combine_mirror (xs ys : list Z) (zs : list Q) :
  combine (combine xs (map Z.opp ys)) zs = map mirror (combine (combine xs ys) zs).
Proof.
  revert ys zs. induction xs as [|x xs IH]; intros [|y ys] [|z zs]; simpl;
    try reflexivity.
  now rewrite IH.
Qed.

Lemma contour_records_reflect (xs ys : list Z) (zs : list Q) :
  length ys = length xs -> length zs = length xs ->
  Contour.records (Contour.get_all_coord (xs, ys, zs))
  = Returns (combine (combine xs ys) zs
             ++ map mirror (combine (combine xs ys) zs)).
Proof.
  intros Hy Hz. unfold Contour.get_all_coord. rewrite contour_reflect.
  unfold Contour.records.
  change (Contour.records_from 0 (xs ++ xs) (ys ++ map Z.opp ys) (zs ++ zs))
    with (Contour.records_from 0 (xs ++ xs) ([] ++ ys ++ map Z.opp ys)
            ([] ++ zs ++ zs)).
  rewrite records_from_rows
    by (rewrite ?length_app, ?length_map; simpl; lia).
  f_equal.
  rewrite combine_append by lia.
  rewrite combine_append by (rewrite length_combine; lia).
  now rewrite combine_mirror.
Qed.

(** C4. Both reflections emit, for every sample [(x, y, c)] of the half
    plane, the sample [(x, -y, c)]; in the reflected field a concentration is
    recorded at [(x, y)] exactly when it is recorded at [(x, -y)].  Stated for
    the list of samples of [2D_contaminant_plot.py] and for the rows of the
    three columns (of one length) of [graph-final.py]. *)
Theorem mirrored_field_symmetric :
  (forall (d : list coord) (x y : Z) (c : Q),
     (In (x, y, c) d -> In (x, (- y)%Z, c) (Scatter.reflect_over_y_axis d)) /\
     (In (x, y, c) (Scatter.reflect_over_y_axis d) <->
      In (x, (- y)%Z, c) (Scatter.reflect_over_y_axis d))) /\
  (forall (xs ys : list Z) (zs : list Q),
     length ys = length xs -> length zs = length xs ->
     exists field : list coord,
       Contour.records (Contour.reflect_over_y_axis (xs, ys, zs)) = Returns field /\
       forall (x y : Z) (c : Q),
         (In (x, y, c) (combine (combine xs ys) zs) -> In (x, (- y)%Z, c) field) /\
         (In (x, y, c) field <-> In (x, (- y)%Z, c) field)).
Proof.
  split.
  - intros d x y c. rewrite scatter_reflect. split.
    + intros K. apply in_app_iff. right.
      apply in_map_iff. now exists (x, y, c).
    + apply (in_mirrored d (x, y, c)).
  - intros xs ys zs Hy Hz. eexists. split.
    + apply (contour_records_reflect xs ys zs Hy Hz).
    + intros x y c. split.
      * intros K. apply in_app_iff. right.
        apply in_map_iff. now exists (x, y, c).
      * apply (in_mirrored _ (x, y, c)).
Qed.

(** ** The sampled field *)

Lemma combine_maps {A : Type} (f g : A -> Z) (k : A -> Q) (l : list A) :
  combine (combine (map f l) (map g l)) (map k l) = map (fun p => (f p, g p, k p)) l.
Proof.
  induction l as [|p l IH]; simpl; [reflexivity | now rewrite IH].
Qed.

Lemma in_concat_reflected (data : list (list coord)) (s : coord) :
  In s (concat (Scatter.get_all_coord data)) <->
  In s (concat data) \/ exists s0, mirror s0 = s /\ In s0 (concat data).
Proof.
  unfold Scatter.get_all_coord.
  induction data as [|d data IH]; simpl.
  - split; [tauto | intros [[]|(s0 & _ & [])]].
  - rewrite !in_app_iff, IH, scatter_reflect, in_app_iff, in_map_iff.
    split.
    + intros [[K|(s0 & E & K)]|[K|(s0 & E & K)]]; auto.
      * right. exists s0. rewrite in_app_iff. auto.
      * right. exists s0. rewrite in_app_iff. auto.
    + intros [[K|K]|(s0 & E & K)]; auto.
      apply in_app_iff in K. destruct K as [K|K].
      * left. right. now exists s0.
      * right. right. now exists s0.
Qed.

Section Field.
Context `{Special}.
Variables (source : Source) (material : Material) (vt : Q).

Lemma raw_spread_even (x y : Z) :
  raw_spread source material (well_at x (- y)) vt
  == raw_spread source material (well_at x y) vt.
Proof.
  unfold raw_spread, well_at. cbn [dx dy].
  rewrite inject_Z_opp, ft_to_m_opp.
  set (yy := ft_to_m (inject_Z y)).
  set (D := 2 * root (ay material * ft_to_m (inject_Z x))).
  set (w := width source / 2).
  assert (E1 : (- yy + w) / D == - ((yy - w) / D)) by (unfold Qdiv; ring).
  assert (E2 : (- yy - w) / D == - ((yy + w) / D)) by (unfold Qdiv; ring).
  rewrite E1, E2, !erf_odd. ring.
Qed.

Lemma grid_concentration_even (x y : Z) :
  grid_concentration source material vt x (- y)
  = grid_concentration source material vt x y.
Proof.
  unfold grid_concentration. f_equal.
  apply convert_to_volume_proper, raw_spread_even.
Qed.

Lemma grid_concentration_abs (x y : Z) :
  grid_concentration source material vt x (Z.abs y)
  = grid_concentration source material vt x y.
Proof.
  destruct (Z.abs_spec y) as [[_ E] | [_ E]]; rewrite E; [reflexivity|].
  apply grid_concentration_even.
Qed.

Lemma in_half_samples (x y : Z) (c : Q) :
  In (x, y, c) (map (grid_sample source material vt) half_grid) <->
  on_grid_x x /\ on_half_y y /\ c = grid_concentration source material vt x y.
Proof.
  rewrite in_map_iff. split.
  - intros ((x', y') & E & K). apply in_half_grid in K.
    unfold grid_sample in E. simpl in E. inversion E; subst. tauto.
  - intros (Hx & Hy & ->). exists (x, y). split; [reflexivity|].
    now apply in_half_grid.
Qed.

Lemma in_full_samples (x y : Z) (c : Q) :
  In (x, y, c) (map (grid_sample source material vt) half_grid
                ++ map mirror (map (grid_sample source material vt) half_grid)) <->
  on_grid_x x /\ on_full_y y /\ c = grid_concentration source material vt x y.
Proof.
  rewrite in_app_iff. split.
  - intros [K | K].
    + apply in_half_samples in K. unfold on_half_y, on_full_y in *.
      intuition lia.
    + apply in_map_iff in K. destruct K as ([[x' y'] c'] & E & K).
      apply in_half_samples in K. destruct K as (Hx & Hy & ->).
      unfold mirror, coord_x, coord_y, coord_con in E. simpl in E.
      inversion E; subst. rewrite grid_concentration_even.
      unfold on_half_y, on_full_y in *. intuition lia.
  - intros (Hx & Hy & ->).
    destruct (Z_le_gt_dec 0 y) as [P | N].
    + left. apply in_half_samples. unfold on_half_y, on_full_y in *.
      intuition lia.
    + right. apply in_map_iff.
      exists (x, (- y)%Z, grid_concentration source material vt x y).
      split.
      * unfold mirror, coord_x, coord_y, coord_con. simpl.
        now rewrite Z.opp_involutive.
      * apply in_half_samples. rewrite grid_concentration_even.
        unfold on_half_y, on_full_y in *. intuition lia.
Qed.

Hypothesis vt_pos : 0 < vt.
Hypothesis ax_pos : 0 < ax material.
Hypothesis ay_pos : 0 < ay material.

Lemma calc_on_full_grid (x y : Z) (c : Q) :
  on_grid_x x ->
  calc_concentration source material (well_at x y) vt = Returns c <->
  c = grid_concentration source material vt x y.
Proof.
  intros Hx. rewrite (calc_on_grid source material vt) by assumption.
  split; [now intros [= <-] | now intros ->].
Qed.

(** The field of [graph-final.py]: the half-plane samples [tri_data], and the
    rows of the reflected columns. *)
Lemma contour_field :
  exists (cols : Contour.columns) (tri field : list coord),
    Contour.get_data source material vt = Returns (cols, tri) /\
    Contour.records (Contour.get_all_coord cols) = Returns field /\
    tri = map (grid_sample source material vt) half_grid /\
    field = tri ++ map mirror tri.
Proof.
  do 3 eexists. split; [now apply contour_get_data|].
  split; [|split; reflexivity].
  rewrite contour_records_reflect by now rewrite !length_map.
  now rewrite combine_maps.
Qed.

(** The field of [2D_contaminant_plot.py]. *)
Lemma scatter_field :
  exists data : list (list coord),
    Scatter.get_data source material vt = Returns data /\
    forall (x y : Z) (c : Q),
      In (x, y, c) (concat (Scatter.get_all_coord data)) <->
      on_grid_x x /\ on_full_y y /\
      c = grid_concentration source material vt x y /\ 100 <= c.
Proof.
  destruct (scatter_get_data source material vt vt_pos ax_pos ay_pos)
    as (data & E & _ & K).
  exists data. split; [exact E|]. intros x y c.
  rewrite in_concat_reflected.
  assert (M : (In (x, y, c) (concat data) \/
               exists s0, mirror s0 = (x, y, c) /\ In s0 (concat data)) <->
              In (x, y, c) (map (grid_sample source material vt) half_grid
                            ++ map mirror (map (grid_sample source material vt) half_grid))
              /\ 100 <= c).
  { rewrite in_app_iff. split.
    - intros [I | (s0 & Es & I)].
      + apply K in I. destruct I as (I & L). split; [now left | exact L].
      + apply K in I. destruct I as (I & L). split.
        * right. apply in_map_iff. now exists s0.
        * change c with (coord_con (x, y, c)). rewrite <- Es. exact L.
    - intros ([I | I] & L).
      + left. apply K. split; [exact I | exact L].
      + apply in_map_iff in I. destruct I as (s0 & Es & I).
        right. exists s0. split; [exact Es|]. apply K. split; [exact I|].
        change c with (coord_con (x, y, c)) in L. rewrite <- Es in L. exact L. }
  rewrite M, in_full_samples. tauto.
Qed.

End Field.

(** ** Bounds on the concentration *)

Section Bounds.
Context `{Special}.

Lemma erf_0 : erf 0 == 0.
Proof.
  pose proof (erf_odd 0) as O.
  assert (E : erf (- 0) == erf 0) by (apply erf_proper; reflexivity).
  rewrite E in O. lra.
Qed.

Lemma erf_ge_m1 (q : Q) : -1 <= erf q.
Proof.
  pose proof (erf_le_1 (- q)) as L. rewrite erf_odd in L. lra.
Qed.

Lemma raw_spread_le_4 (source : Source) (material : Material) (well : Well) (vt : Q) :
  raw_spread source material well vt <= 4.
Proof.
  unfold raw_spread.
  set (a := (dx well - vt) / _). set (b := (dy well + _) / _). set (c := (dy well - _) / _).
  rewrite erfc_erf.
  pose proof (erf_ge_m1 a). pose proof (erf_le_1 a).
  pose proof (erf_ge_m1 c). pose proof (erf_le_1 b).
  set (ea := erf a) in *. set (eb := erf b) in *. set (ec := erf c) in *.
  clearbody ea eb ec. nra.
Qed.

(** Behind the front ([x <= vt]) and well inside the source width, the raw
    spread is at least 1.6. *)
Lemma raw_spread_core (source : Source) (material : Material) (well : Well) (vt : Q) :
  0 < ax material * vt -> 0 < ay material * dx well ->
  dx well <= vt ->
  ay material * dx well + 1 <= dy well + width source / 2 ->
  dy well - width source / 2 <= - (ay material * dx well + 1) ->
  8 # 5 <= raw_spread source material well vt.
Proof.
  intros Hax Hay Hx Hup Hlo. unfold raw_spread.
  pose proof (root_pos _ Hax) as Rx. pose proof (root_pos _ Hay) as Ry.
  pose proof (root_le (ay material * dx well) (Qlt_le_weak _ _ Hay)) as Rle.
  set (a := (dx well - vt) / _). set (b := (dy well + _) / _). set (c := (dy well - _) / _).
  assert (Ha : a <= 0).
  { unfold a. apply Qle_shift_div_r; lra. }
  assert (Hb : 1 <= b).
  { unfold b. apply Qle_shift_div_l; lra. }
  assert (Hc : c <= - (1)).
  { unfold c. apply Qle_shift_div_r; lra. }
  rewrite erfc_erf.
  pose proof (erf_mono _ _ Ha) as Ea. rewrite erf_0 in Ea.
  pose proof (erf_mono _ _ Hb) as Eb.
  pose proof (erf_mono _ _ Hc) as Ec. rewrite erf_odd in Ec.
  pose proof erf_at_1 as E1.
  pose proof (erf_ge_m1 a) as Ea'.
  set (ea := erf a) in *. set (eb := erf b) in *. set (ec := erf c) in *.
  set (e1 := erf 1) in *. clearbody ea eb ec e1. nra.
Qed.

(** Beside the source, beyond half its width, the raw spread is at most
    0.32. *)
Lemma raw_spread_beside (source : Source) (material : Material) (well : Well) (vt : Q) :
  0 < ay material * dx well ->
  ay material * dx well + 1 <= dy well - width source / 2 ->
  raw_spread source material well vt <= 8 # 25.
Proof.
  intros Hay Hout. unfold raw_spread.
  pose proof (root_pos _ Hay) as Ry.
  pose proof (root_le (ay material * dx well) (Qlt_le_weak _ _ Hay)) as Rle.
  set (a := (dx well - vt) / _). set (b := (dy well + _) / _). set (c := (dy well - _) / _).
  assert (Hc : 1 <= c).
  { unfold c. apply Qle_shift_div_l; lra. }
  rewrite erfc_erf.
  pose proof (erf_mono _ _ Hc) as Ec.
  pose proof erf_at_1 as E1.
  pose proof (erf_ge_m1 a) as Ea. pose proof (erf_le_1 a) as Ea'.
  pose proof (erf_le_1 b) as Eb.
  set (ea := erf a) in *. set (eb := erf b) in *. set (ec := erf c) in *.
  set (e1 := erf 1) in *. clearbody ea eb ec e1. nra.
Qed.

Lemma convert_to_volume_above (source : Source) (value : Q) :
  1 # 100 < concentration source / 4 * value ->
  1 # 100 <= float (convert_to_volume source value).
Proof.
  intros L. destruct (converted_value_range source value) as [E | E];
    [|exact E].
  exfalso. revert E. unfold convert_to_volume.
  qbool; [lra|]. simpl. intros Z0.
  assert (L' : 1 < concentration source / 4 * value * 100).
  { set (c := concentration source / 4 * value) in *. clearbody c. lra. }
  apply round_half_even_ge_1 in L'.
  injection Z0 as Z0. lia.
Qed.

Lemma convert_to_volume_le (source : Source) (value bound : Q) :
  0 <= bound -> concentration source / 4 * value <= bound ->
  float (convert_to_volume source value) <= bound + (1 # 200).
Proof.
  intros B L. unfold convert_to_volume.
  qbool; [simpl; change (inject_Z 0) with 0; lra|].
  simpl float. rewrite Qmake_100.
  pose proof (round_half_even_near (concentration source / 4 * value * 100)) as N.
  apply Qabs_Qle_condition in N.
  setoid_replace (inject_Z (round_half_even (concentration source / 4 * value * 100)) / 100)
    with (inject_Z (round_half_even (concentration source / 4 * value * 100)) * (1 # 100))
    by reflexivity.
  set (r := inject_Z (round_half_even _)) in *. clearbody r.
  set (c := concentration source / 4 * value) in *. clearbody c. lra.
Qed.

(** No concentration exceeds the source concentration by more than the
    rounding. *)
Lemma grid_concentration_le (source : Source) (material : Material) (vt : Q) (x y : Z) :
  0 <= concentration source ->
  grid_concentration source material vt x y <= concentration source + (1 # 200).
Proof.
  intros P. unfold grid_concentration. apply convert_to_volume_le; [exact P|].
  pose proof (raw_spread_le_4 source material (well_at x y) vt) as R.
  setoid_replace (concentration source / 4 * raw_spread source material (well_at x y) vt)
    with (concentration source * (1 # 4) * raw_spread source material (well_at x y) vt)
    by reflexivity.
  set (r := raw_spread source material (well_at x y) vt) in *.
  set (s := concentration source) in *. clearbody r s. nra.
Qed.

End Bounds.

(** ** Point lookup *)

(** The search of [graph-final.py] compares the two coordinates, [x] with the
    first item and [abs(y)] with the second: it yields the concentration of a
    sample at [(x, abs(y))], or 0 when the data has none. *)
Lemma find_concentration_spec (x y : Z) (data : list coord) :
  (exists s, In s data /\ coord_x s = x /\ coord_y s = Z.abs y /\
             Contour.find_concentration x y data = coord_con s) \/
  ((forall s, In s data -> ~ (coord_x s = x /\ coord_y s = Z.abs y)) /\
   Contour.find_concentration x y data = 0).
Proof.
  unfold Contour.find_concentration.
  induction data as [|s data IH] using rev_ind.
  - right. split; [intros s [] | reflexivity].
  - rewrite fold_left_app. simpl.
    destruct (Z.eqb_spec x (coord_x s)) as [Ex | Nx]; simpl.
    + destruct (Z.eqb_spec (Z.abs y) (coord_y s)) as [Ey | Ny].
      * left. exists s. rewrite in_app_iff. simpl. auto.
      * destruct IH as [(s0 & I & K) | (N & E)].
        -- left. exists s0. rewrite in_app_iff. auto.
        -- right. split; [|exact E]. intros s0 I.
           apply in_app_iff in I. destruct I as [I | [<- | []]];
             [now apply N | intros (_ & Ey); auto].
    + destruct IH as [(s0 & I & K) | (N & E)].
      * left. exists s0. rewrite in_app_iff. auto.
      * right. split; [|exact E]. intros s0 I.
        apply in_app_iff in I. destruct I as [I | [<- | []]];
          [now apply N | intros (Ex & _); auto].
Qed.

Lemma scatter_lookup_empty (x y : Z) (data : list (list coord)) :
  (forall s, ~ In s (concat data)) ->
  Scatter.get_specific_concentration x y data = None.
Proof.
  induction data as [|d data IH]; intros N; [reflexivity|].
  simpl. destruct d as [|s d].
  - simpl. apply IH. intros s I. apply (N s). exact I.
  - exfalso. apply (N s). now left.
Qed.

(** [get_specific_concentration] of [graph-final.py] skips the invalid
    entries and prints the result of the search for the first valid ones. *)
Lemma contour_get_specific_concentration (data : list coord) (x y : Z) (typed : list Z) :
  Contour.valid_x x = true -> Contour.valid_y y = true ->
  Contour.get_specific_concentration data (x :: y :: typed)
  = Some (Contour.find_concentration x y data, (x, y)).
Proof.
  intros Vx Vy. unfold Contour.get_specific_concentration.
  cbn [Contour.prompt]. rewrite Vx. cbn [Contour.prompt]. now rewrite Vy.
Qed.

Section Lookup.
Context `{Special}.
Variables (source : Source) (material : Material) (vt : Q).

Lemma contour_lookup_on_grid (x y : Z) :
  on_grid_x x -> on_full_y y ->
  Contour.find_concentration x y (map (grid_sample source material vt) half_grid)
  = grid_concentration source material vt x y.
Proof.
  intros Hx Hy.
  destruct (find_concentration_spec x y
              (map (grid_sample source material vt) half_grid))
    as [([[x' y'] c'] & I & Ex & Ey & ->) | (N & _)].
  - apply in_half_samples in I. destruct I as (_ & _ & ->).
    unfold coord_x, coord_y in *. simpl in Ex, Ey. subst x' y'.
    apply grid_concentration_abs.
  - exfalso.
    apply (N (x, Z.abs y, grid_concentration source material vt x (Z.abs y))).
    + apply in_half_samples. split; [exact Hx | split; [|reflexivity]].
      unfold on_half_y, on_full_y in *. lia.
    + now split.
Qed.

End Lookup.

(** ** The claims on the field *)

Section FieldClaims.
Context `{Special}.
Variables (source : Source) (material : Material) (vt : Q).
Hypothesis vt_pos : 0 < vt.
Hypothesis ax_pos : 0 < ax material.
Hypothesis ay_pos : 0 < ay material.

(** C3, as the code has it.  Both sweeps evaluate every grid point and key
    the samples by the feet coordinates.  In [graph-final.py], [tri_data] holds
    the sample of every even x in 2..448 and every y in 0..200, and the rows
    of the reflected columns hold a sample for every such x and every y in
    -200..200 (those at y = 0 twice), each with the result of
    [calc_concentration] at the point converted to meters, and nothing else.
    In [2D_contaminant_plot.py] only the samples whose concentration is at
    least 100 are kept, in four lists by band. *)
Theorem field_sampler_coverage :
  (exists (cols : Contour.columns) (tri field : list coord),
     Contour.get_data source material vt = Returns (cols, tri) /\
     Contour.records (Contour.get_all_coord cols) = Returns field /\
     (forall (x y : Z) (c : Q),
        In (x, y, c) tri <->
        on_grid_x x /\ on_half_y y /\
        calc_concentration source material (well_at x y) vt = Returns c) /\
     (forall (x y : Z) (c : Q),
        In (x, y, c) field <->
        on_grid_x x /\ on_full_y y /\
        calc_concentration source material (well_at x y) vt = Returns c)) /\
  (exists data : list (list coord),
     Scatter.get_data source material vt = Returns data /\
     forall (x y : Z) (c : Q),
       In (x, y, c) (concat (Scatter.get_all_coord data)) <->
       on_grid_x x /\ on_full_y y /\
       calc_concentration source material (well_at x y) vt = Returns c /\
       100 <= c).
Proof.
  split.
  - destruct (contour_field source material vt vt_pos ax_pos ay_pos)
      as (cols & tri & field & E1 & E2 & -> & ->).
    exists cols, (map (grid_sample source material vt) half_grid). eexists.
    split; [exact E1|]. split; [exact E2|]. split; intros x y c.
    + rewrite in_half_samples. split.
      * intros (Hx & Hy & E). split; [exact Hx | split; [exact Hy|]].
        now apply calc_on_full_grid.
      * intros (Hx & Hy & E). split; [exact Hx | split; [exact Hy|]].
        now apply calc_on_full_grid in E.
    + rewrite in_full_samples. split.
      * intros (Hx & Hy & E). split; [exact Hx | split; [exact Hy|]].
        now apply calc_on_full_grid.
      * intros (Hx & Hy & E). split; [exact Hx | split; [exact Hy|]].
        now apply calc_on_full_grid in E.
  - destruct (scatter_field source material vt vt_pos ax_pos ay_pos)
      as (data & E & K).
    exists data. split; [exact E|]. intros x y c. rewrite K. split.
    + intros (Hx & Hy & Ec & L).
      split; [exact Hx | split; [exact Hy | split; [|exact L]]].
      now apply calc_on_full_grid.
    + intros (Hx & Hy & Ec & L).
      split; [exact Hx | split; [exact Hy | split; [|exact L]]].
      now apply calc_on_full_grid in Ec.
Qed.

(** C5. With a positive travel distance and positive dispersivities, the
    evaluation of every grid point (even x in 2..448, y in 0..200) returns a
    number, without an error, and that number is 0 or strictly positive; so
    is every concentration of the field of [graph-final.py], and every
    concentration kept by [2D_contaminant_plot.py] is strictly positive. *)
Theorem field_concentrations_nonnegative :
  (forall x y : Z,
     on_grid_x x -> on_half_y y ->
     exists c : Q,
       calc_concentration source material (well_at x y) vt = Returns c /\
       (c = 0 \/ 0 < c)) /\
  (exists (cols : Contour.columns) (tri field : list coord),
     Contour.get_data source material vt = Returns (cols, tri) /\
     Contour.records (Contour.get_all_coord cols) = Returns field /\
     forall (x y : Z) (c : Q), In (x, y, c) field -> c = 0 \/ 0 < c) /\
  (exists data : list (list coord),
     Scatter.get_data source material vt = Returns data /\
     forall (x y : Z) (c : Q),
       In (x, y, c) (concat (Scatter.get_all_coord data)) -> 0 < c).
Proof.
  assert (R : forall x y : Z,
             grid_concentration source material vt x y = 0 \/
             0 < grid_concentration source material vt x y).
  { intros x y. unfold grid_concentration.
    destruct (converted_value_range source
                (raw_spread source material (well_at x y) vt)) as [E | L];
      [now left | right; lra]. }
  split; [|split].
  - intros x y Hx _. eexists. split; [now apply calc_on_grid | apply R].
  - destruct (contour_field source material vt vt_pos ax_pos ay_pos)
      as (cols & tri & field & E1 & E2 & -> & ->).
    exists cols, (map (grid_sample source material vt) half_grid). eexists.
    split; [exact E1|]. split; [exact E2|].
    intros x y c I. apply in_full_samples in I.
    destruct I as (_ & _ & ->). apply R.
  - destruct (scatter_field source material vt vt_pos ax_pos ay_pos)
      as (data & E & K).
    exists data. split; [exact E|]. intros x y c I.
    apply K in I. destruct I as (_ & _ & _ & L). lra.
Qed.

(** C8, as the code has it.  In [graph-final.py], for every grid point (even
    x in 2..448, y in -200..200) the search over [tri_data] yields what
    [calc_concentration] returns at the point converted to meters.  In
    [2D_contaminant_plot.py] the field holds no sample for a grid point whose
    concentration is below 100. *)
Theorem lookup_agrees_with_evaluator :
  (exists (cols : Contour.columns) (tri : list coord),
     Contour.get_data source material vt = Returns (cols, tri) /\
     forall x y : Z,
       on_grid_x x -> on_full_y y ->
       calc_concentration source material (well_at x y) vt
       = Returns (Contour.find_concentration x y tri)) /\
  (exists data : list (list coord),
     Scatter.get_data source material vt = Returns data /\
     forall (x y : Z) (c : Q),
       calc_concentration source material (well_at x y) vt = Returns c ->
       c < 100 ->
       forall c' : Q, ~ In (x, y, c') (concat (Scatter.get_all_coord data))).
Proof.
  split.
  - eexists. eexists. split; [now apply contour_get_data|].
    intros x y Hx Hy. rewrite contour_lookup_on_grid by assumption.
    now apply calc_on_grid.
  - destruct (scatter_field source material vt vt_pos ax_pos ay_pos)
      as (data & E & K).
    exists data. split; [exact E|]. intros x y c Ec L c' I.
    apply K in I. destruct I as (Hx & _ & -> & L').
    apply calc_on_full_grid in Ec; trivial. subst c. lra.
Qed.

End FieldClaims.

(** ** The claims at concrete inputs *)

(** Closes a comparison of two rational constants. *)
Ltac qdecide := first [reflexivity | vm_compute; discriminate].

Lemma on_grid_x_50 : on_grid_x 50.
Proof. split; [lia | reflexivity]. Qed.

Lemma on_grid_x_2 : on_grid_x 2.
Proof. split; [lia | reflexivity]. Qed.

Lemma calc_concentration_formula_witness :
  calc_concentration (H := sample_special) source_1 material_1 (well_at 50 0)
    velocity_time
  = Returns (float (convert_to_volume source_1
               (raw_spread (H := sample_special) source_1 material_1 (well_at 50 0)
                  velocity_time))).
Proof.
  apply (@calc_concentration_formula sample_special source_1 material_1
           (well_at 50 0) velocity_time); reflexivity.
Defined.

Lemma convert_to_volume_threshold_round_witness :
  convert_to_volume source_1 (1 # 100000) = VInt 0 /\
  exists h : Z,
    convert_to_volume source_1 (12345 # 1000000) = VText h /\
    float (VText h) == inject_Z h / 100 /\
    Qabs (1000 / 4 * (12345 # 1000000) - float (VText h)) <= 1 # 200.
Proof.
  split.
  - apply (proj1 (convert_to_volume_threshold_round source_1
                    (1 # 100000))).
    vm_compute. discriminate.
  - apply (proj2 (convert_to_volume_threshold_round source_1
                    (12345 # 1000000))).
    reflexivity.
Defined.

Lemma mirrored_field_symmetric_witness :
  In (2%Z, (- 3)%Z, 950) (Scatter.reflect_over_y_axis [(2%Z, 3%Z, 950)]).
Proof.
  apply (proj1 (proj1 mirrored_field_symmetric [(2%Z, 3%Z, 950)] 2%Z 3%Z 950)).
  left. reflexivity.
Defined.

Lemma spread_functions_unguarded_witness :
  spread_x_positive (H := sample_special) (mkMaterial 1 1) (mkWell (-1) 0) 1
  = Returns (@erfc sample_special ((-1 - 1) / (2 * @root sample_special (1 * 1)))) /\
  spread_x_positive (H := sample_special) (mkMaterial 1 1) (mkWell 1 0) 0
  = Raises ZeroDivisionError /\
  spread_y_positive (H := sample_special) source_1 (mkMaterial 1 1) (mkWell (-1) 0)
  = Complex.
Proof.
  split; [|split].
  - apply (proj1 (@spread_functions_unguarded sample_special source_1
                    (mkMaterial 1 1) (mkWell (-1) 0) 1)).
    reflexivity.
  - apply (proj1 (proj2 (@spread_functions_unguarded sample_special source_1
                           (mkMaterial 1 1) (mkWell 1 0) 0))).
    reflexivity.
  - apply (proj2 (proj2 (proj2 (proj2
             (@spread_functions_unguarded sample_special source_1
                (mkMaterial 1 1) (mkWell (-1) 0) 1))))).
    reflexivity.
Defined.

(** C6 fails on the code: [spread_x_positive] with the non-positive
    x-coordinate -1 (and [ax = 1], [vt = 1]) raises nothing; it returns
    [erfc(-1)]. *)
Lemma spread_x_positive_accepts_nonpositive_x :
  ~ (forall (S : Special) (material : Material) (well : Well) (vt : Q),
       vt <= 0 \/ dx well <= 0 \/ ax material <= 0 ->
       fails_fast (spread_x_positive material well vt)).
Proof.
  intros C.
  destruct (C sample_special (mkMaterial 1 1) (mkWell (-1) 0) 1) as (e & E).
  - right. left. vm_compute. discriminate.
  - unfold spread_x_positive in E. cbv zeta in E.
    rewrite quotient_pos in E by reflexivity. discriminate.
Qed.

Lemma field_sampler_coverage_witness :
  exists (cols : Contour.columns) (tri : list coord) (c : Q),
    Contour.get_data (H := sample_special) source_1 material_1 velocity_time
    = Returns (cols, tri) /\
    calc_concentration (H := sample_special) source_1 material_1 (well_at 50 0)
      velocity_time = Returns c /\
    In (50%Z, 0%Z, c) tri.
Proof.
  destruct (@field_sampler_coverage sample_special source_1 material_1
              velocity_time eq_refl eq_refl eq_refl)
    as ((cols & tri & field & E1 & _ & K & _) & _).
  exists cols, tri. eexists. split; [exact E1|]. split.
  - apply (@calc_on_grid sample_special source_1 material_1 velocity_time
             eq_refl eq_refl eq_refl 50 0 on_grid_x_50).
  - apply K. split; [exact on_grid_x_50|]. split; [unfold on_half_y; lia|].
    apply (@calc_on_grid sample_special source_1 material_1 velocity_time
             eq_refl eq_refl eq_refl 50 0 on_grid_x_50).
Defined.

(** With a source of 40 micro-gram per liter no concentration reaches 100:
    the sweep of [2D_contaminant_plot.py] keeps no sample at all. *)
Lemma scatter_weak_source_keeps_nothing `{Special} (data : list (list coord)) :
  Scatter.get_data weak_source material_1 velocity_time = Returns data ->
  forall s, ~ In s (concat (Scatter.get_all_coord data)).
Proof.
  intros E.
  destruct (scatter_field weak_source material_1 velocity_time
              eq_refl eq_refl eq_refl) as (data' & E' & K).
  rewrite E in E'. injection E' as <-.
  intros [[x y] c] I. apply K in I. destruct I as (_ & _ & -> & L).
  pose proof (grid_concentration_le weak_source material_1 velocity_time x y) as B.
  assert (P : 0 <= concentration weak_source) by (vm_compute; discriminate).
  specialize (B P). change (concentration weak_source) with 40 in B. lra.
Qed.

(** With [main]'s own constants, the concentration of the grid point
    (2, 200), beside the source, stays below 100, whatever the library
    functions. *)
Lemma main_concentration_at_2_200 `{Special} :
  grid_concentration source_1 material_1 velocity_time 2 200 <= 80 + (1 # 200).
Proof.
  unfold grid_concentration. apply convert_to_volume_le; [qdecide|].
  assert (R : raw_spread source_1 material_1 (well_at 2 200) velocity_time <= 8 # 25).
  { apply raw_spread_beside; qdecide. }
  change (concentration source_1) with 1000.
  setoid_replace (1000 / 4) with 250 by reflexivity.
  set (r := raw_spread _ _ _ _) in *. clearbody r. lra.
Qed.

(** C3 fails on [2D_contaminant_plot.py]: with [main]'s own constants, the
    field has no sample for the grid point (2, 200), whose concentration is
    below 100. *)
Lemma scatter_sampler_drops_low_samples :
  ~ (forall (S : Special) (source : Source) (material : Material) (vt : Q),
       0 < vt -> 0 < ax material -> 0 < ay material ->
       forall x y : Z, on_grid_x x -> on_full_y y ->
       exists (data : list (list coord)) (c : Q),
         Scatter.get_data source material vt = Returns data /\
         In (x, y, c) (concat (Scatter.get_all_coord data))).
Proof.
  intros C.
  destruct (C sample_special source_1 material_1 velocity_time
              eq_refl eq_refl eq_refl 2%Z 200%Z on_grid_x_2)
    as (data & c & E & I).
  - unfold on_full_y. lia.
  - destruct (@scatter_field sample_special source_1 material_1 velocity_time
                eq_refl eq_refl eq_refl) as (data' & E' & K).
    rewrite E in E'. apply Returns_inj in E'. subst data'.
    apply K in I. destruct I as (_ & _ & -> & L).
    pose proof (@main_concentration_at_2_200 sample_special) as B. lra.
Qed.

Lemma field_concentrations_nonnegative_witness :
  exists c : Q,
    calc_concentration (H := sample_special) source_1 material_1 (well_at 50 0)
      velocity_time = Returns c /\
    (c = 0 \/ 0 < c).
Proof.
  apply (proj1 (@field_concentrations_nonnegative sample_special source_1
                  material_1 velocity_time eq_refl eq_refl eq_refl) 50%Z 0%Z).
  - exact on_grid_x_50.
  - unfold on_half_y. lia.
Defined.

Lemma lookup_agrees_with_evaluator_witness :
  exists (cols : Contour.columns) (tri : list coord),
    Contour.get_data (H := sample_special) source_1 material_1 velocity_time
    = Returns (cols, tri) /\
    calc_concentration (H := sample_special) source_1 material_1
      (well_at 50 (-7)) velocity_time
    = Returns (Contour.find_concentration 50 (-7) tri).
Proof.
  destruct (@lookup_agrees_with_evaluator sample_special source_1 material_1
              velocity_time eq_refl eq_refl eq_refl)
    as ((cols & tri & E & K) & _).
  exists cols, tri. split; [exact E|].
  apply K; [exact on_grid_x_50 | unfold on_full_y; lia].
Defined.

(** At the grid point (2, 0) the weak source gives a concentration of at least
    0.01, whatever the library functions. *)
Lemma weak_source_concentration_at_2_0 `{Special} :
  1 # 100 <= grid_concentration weak_source material_1 velocity_time 2 0.
Proof.
  unfold grid_concentration. apply convert_to_volume_above.
  assert (R : 8 # 5 <= raw_spread weak_source material_1 (well_at 2 0) velocity_time).
  { apply raw_spread_core; qdecide. }
  change (concentration weak_source) with 40.
  setoid_replace (40 / 4) with 10 by reflexivity.
  set (r := raw_spread _ _ _ _) in *. clearbody r. lra.
Qed.

(** C8 fails on [2D_contaminant_plot.py]: with [main]'s geometry and a source
    of 40 micro-gram per liter, the lookup of the grid point (2, 0) finds no
    sample, and [main] reports 0, while [calc_concentration] returns at least
    0.01 there. *)
Lemma scatter_lookup_misses_low_samples :
  ~ (forall (S : Special) (source : Source) (material : Material) (vt : Q),
       0 < vt -> 0 < ax material -> 0 < ay material ->
       forall x y : Z, on_grid_x x -> on_full_y y ->
       exists data : list (list coord),
         Scatter.get_data source material vt = Returns data /\
         calc_concentration source material (well_at x y) vt
         = Returns (Scatter.user_con x y (Scatter.get_all_coord data))).
Proof.
  intros C.
  destruct (C sample_special weak_source material_1 velocity_time
              eq_refl eq_refl eq_refl 2%Z 0%Z on_grid_x_2)
    as (data & E & Ec).
  - unfold on_full_y. lia.
  - unfold Scatter.user_con in Ec.
    rewrite scatter_lookup_empty in Ec
      by exact (scatter_weak_source_keeps_nothing data E).
    rewrite (@calc_on_grid sample_special weak_source material_1 velocity_time
               eq_refl eq_refl eq_refl 2 0 on_grid_x_2) in Ec.
    apply Returns_inj in Ec.
    pose proof (@weak_source_concentration_at_2_0 sample_special) as L.
    rewrite Ec in L. vm_compute in L. now apply L.
Qed.

(** C7 on [2D_contaminant_plot.py]: the subset test matches a sample that has
    the two numbers in any position.  The query (100, 150) on a field whose
    only sample is at (150, 100) returns that sample's concentration, though
    no sample has the coordinates (100, 150); the search of [graph-final.py]
    on the same sample yields 0. *)
Theorem scatter_lookup_matches_swapped_coordinates :
  let data := [[]; []; [(150%Z, 100%Z, 49579 # 100)]; []] in
  (forall s, In s (concat data) -> ~ (coord_x s = 100%Z /\ coord_y s = 150%Z)) /\
  Scatter.get_specific_concentration 100 150 data = Some (49579 # 100) /\
  Scatter.user_con 100 150 data = 49579 # 100 /\
  Contour.find_concentration 100 150 (concat data) = 0.
Proof.
  cbv zeta. split; [|repeat split].
  intros s [<- | []] (E & _). discriminate.
Qed.

(** * Further properties of the code *)

(** ** The evaluator *)

Lemma round_half_even_bounds (q : Q) :
  (Qfloor q <= round_half_even q <= Qfloor q + 1)%Z.
Proof.
  unfold round_half_even.
  destruct (Qcompare _ _); [destruct (Z.even _)|..]; lia.
Qed.

Lemma round_half_even_mono (q r : Q) :
  q <= r -> (round_half_even q <= round_half_even r)%Z.
Proof.
  intros L.
  pose proof (Qfloor_resp_le _ _ L) as F.
  destruct (Z.eq_dec (Qfloor q) (Qfloor r)) as [E | N].
  - unfold round_half_even. rewrite E.
    destruct (Qcompare (q - inject_Z (Qfloor r)) (1 # 2)) eqn:Cq;
      destruct (Qcompare (r - inject_Z (Qfloor r)) (1 # 2)) eqn:Cr;
      try (destruct (Z.even (Qfloor r)); lia); try lia; exfalso;
      first [apply Qeq_alt in Cq | apply Qlt_alt in Cq | apply Qgt_alt in Cq];
      first [apply Qeq_alt in Cr | apply Qlt_alt in Cr | apply Qgt_alt in Cr];
      lra.
  - pose proof (round_half_even_bounds q). pose proof (round_half_even_bounds r).
    lia.
Qed.

Section EvaluatorFacts.
Context `{Special}.


(** X2. With [ax·vt > 0], [spread_x_positive] returns a value for every well,
    between 0 and 2, and it does not grow with the distance x of the well:
    farther downstream the longitudinal factor is smaller or equal. *)
Theorem spread_x_positive_decreasing
  (material : Material) (vt x1 x2 y1 y2 : Q) :
  0 < ax material * vt -> x1 <= x2 ->
  exists a b : Q,
    spread_x_positive material (mkWell x1 y1) vt = Returns a /\
    spread_x_positive material (mkWell x2 y2) vt = Returns b /\
    0 <= b /\ b <= a /\ a <= 2.
Proof.
  intros Hax Hx. unfold spread_x_positive. cbv zeta. cbn [dx].
  rewrite !quotient_pos by exact Hax.
  do 2 eexists. split; [reflexivity|]. split; [reflexivity|].
  pose proof (root_pos _ Hax) as R.
  assert (HD : 0 < 2 * root (ax material * vt)) by lra.
  set (D := 2 * root (ax material * vt)) in *. clearbody D.
  assert (M : (x1 - vt) / D <= (x2 - vt) / D).
  { unfold Qdiv. apply Qmult_le_compat_r; [lra|].
    apply Qinv_le_0_compat. lra. }
  rewrite !erfc_erf.
  pose proof (erf_mono _ _ M). pose proof (erf_le_1 ((x2 - vt) / D)).
  pose proof (erf_ge_m1 ((x1 - vt) / D)). lra.
Qed.

(** X3. With a valid point ([x > 0], [vt > 0], positive dispersivities) and a
    source concentration that is not negative, [calc_concentration] returns a
    value between 0 and the source concentration, up to the half hundredth of
    the rounding. *)
Theorem calc_concentration_bounded
  (source : Source) (material : Material) (well : Well) (vt : Q) :
  0 < dx well -> 0 < vt -> 0 < ax material -> 0 < ay material ->
  0 <= concentration source ->
  exists c : Q,
    calc_concentration source material well vt = Returns c /\
    0 <= c /\ c <= concentration source + (1 # 200).
Proof.
  intros Hx Hvt Hax Hay Hs.
  rewrite calc_concentration_returns by assumption.
  eexists. split; [reflexivity|]. split.
  - destruct (converted_value_range source (raw_spread source material well vt))
      as [E | L]; [rewrite E|]; lra.
  - apply convert_to_volume_le; [exact Hs|].
    pose proof (raw_spread_le_4 source material well vt) as R.
    setoid_replace (concentration source / 4 * raw_spread source material well vt)
      with (concentration source * (1 # 4) * raw_spread source material well vt)
      by reflexivity.
    set (r := raw_spread source material well vt) in *.
    set (s := concentration source) in *. clearbody r s. nra.
Qed.

End EvaluatorFacts.

(** X4. The threshold and the rounding of [convert_to_volume] keep the order:
    for a source concentration that is not negative, a larger spread value
    never reads back as a smaller concentration. *)
Theorem convert_to_volume_monotone (source : Source) (v1 v2 : Q) :
  0 <= concentration source -> v1 <= v2 ->
  float (convert_to_volume source v1) <= float (convert_to_volume source v2).
Proof.
  intros Hs Hv.
  assert (Hc : concentration source / 4 * v1 <= concentration source / 4 * v2).
  { setoid_replace (concentration source / 4) with (concentration source * (1 # 4))
      by reflexivity.
    set (s := concentration source) in *. clearbody s. nra. }
  unfold convert_to_volume. cbv zeta.
  set (c1 := concentration source / 4 * v1) in *.
  set (c2 := concentration source / 4 * v2) in *. clearbody c1 c2.
  destruct (Qle_bool c1 (1 # 100)) eqn:E1; destruct (Qle_bool c2 (1 # 100)) eqn:E2.
  - apply Qle_refl.
  - apply Qle_bool_false in E2. simpl. unfold Qle. simpl.
    assert (L : 1 < c2 * 100) by lra.
    apply round_half_even_ge_1 in L. lia.
  - apply Qle_bool_iff in E2. apply Qle_bool_false in E1. exfalso. lra.
  - simpl. unfold Qle. simpl.
    assert (M : c1 * 100 <= c2 * 100) by lra.
    apply round_half_even_mono in M. lia.
Qed.

(** ** The bands of the scatter script *)

Lemma record_point_band (i : nat) (x y : Z) (c : Q) (st : Scatter.bands) (s : coord) :
  In s (nth i [Scatter.over_900 (Scatter.record_point x y c st);
               Scatter.over_500 (Scatter.record_point x y c st);
               Scatter.over_300 (Scatter.record_point x y c st);
               Scatter.over_100 (Scatter.record_point x y c st)] []) <->
  In s (nth i [Scatter.over_900 st; Scatter.over_500 st; Scatter.over_300 st;
               Scatter.over_100 st] []) \/
  (s = (x, y, c) /\ band_bounds i c).
Proof.
  unfold Scatter.record_point.
  destruct (Qle_bool 900 c) eqn:E9;
    [apply Qle_bool_iff in E9 | apply Qle_bool_false in E9;
     destruct (Qle_bool 500 c) eqn:E5;
     [apply Qle_bool_iff in E5 | apply Qle_bool_false in E5;
      destruct (Qle_bool 300 c) eqn:E3;
      [apply Qle_bool_iff in E3 | apply Qle_bool_false in E3;
       destruct (Qle_bool 100 c) eqn:E1;
       [apply Qle_bool_iff in E1 | apply Qle_bool_false in E1]]]];
    destruct i as [|[|[|[|i]]]]; cbn [nth Scatter.over_900 Scatter.over_500
      Scatter.over_300 Scatter.over_100 band_bounds];
    rewrite ?in_app_iff; simpl In;
    intuition (try lra; subst; auto).
Qed.

Section Bands.
Context `{Special}.
Variables (source : Source) (material : Material) (vt : Q).
Hypothesis vt_pos : 0 < vt.
Hypothesis ax_pos : 0 < ax material.
Hypothesis ay_pos : 0 < ay material.

Let band_step (st : Scatter.bands) (p : Z * Z) : Scatter.bands :=
  Scatter.record_point (fst p) (snd p)
    (grid_concentration source material vt (fst p) (snd p)) st.

Let band_lists (st : Scatter.bands) : list (list coord) :=
  [Scatter.over_900 st; Scatter.over_500 st; Scatter.over_300 st;
   Scatter.over_100 st].

Lemma band_sweep (i : nat) (g : list (Z * Z)) (st : Scatter.bands) (s : coord) :
  In s (nth i (band_lists (fold_left band_step g st)) []) <->
  In s (nth i (band_lists st) []) \/
  (In s (map (grid_sample source material vt) g) /\ band_bounds i (coord_con s)).
Proof.
  revert st. induction g as [|p g IH]; intros st.
  - simpl. tauto.
  - cbn [fold_left map]. rewrite IH.
    change (band_lists (band_step st p))
      with [Scatter.over_900 (band_step st p); Scatter.over_500 (band_step st p);
            Scatter.over_300 (band_step st p); Scatter.over_100 (band_step st p)].
    unfold band_step. rewrite record_point_band. fold (band_lists st).
    unfold grid_sample. simpl In. split.
    + intros [[K | (-> & B)] | (K & B)]; auto.
    + intros [K | ([<- | K] & B)]; auto.
Qed.

Lemma scatter_get_data_bands :
  exists b0 b1 b2 b3 : list coord,
    Scatter.get_data source material vt = Returns [b0; b1; b2; b3] /\
    forall (i : nat) (s : coord),
      In s (nth i [b0; b1; b2; b3] []) <->
      In s (map (grid_sample source material vt) half_grid) /\
      band_bounds i (coord_con s).
Proof.
  unfold Scatter.get_data.
  rewrite (for_each_fold _ _
             (fun st x => fold_left (fun st y => band_step st (x, y))
                                    (range 0 201 1) st)).
  - cbv beta iota delta [bind]. rewrite (fold_left_nested band_step).
    fold half_grid.
    do 4 eexists. split; [reflexivity|]. intros i s.
    fold (band_lists (fold_left band_step half_grid (Scatter.mkBands [] [] [] []))).
    rewrite band_sweep.
    split; [intros [K | K]; [|exact K] | intros K; right; exact K].
    exfalso. destruct i as [|[|[|[|[|i]]]]]; exact K.
  - intros x st Hx. apply in_range_x in Hx.
    apply (for_each_fold _ _ (fun st y => band_step st (x, y))).
    intros y st' _.
    now rewrite (calc_on_grid source material vt vt_pos ax_pos ay_pos).
Qed.

(** X5. The sweep of [2D_contaminant_plot.py] returns four lists, in the
    order [over_900], [over_500], [over_300], [over_100]; list [i] holds the
    samples of exactly the half-plane grid points whose concentration lies in
    band [i]: at least 900, from 500 to below 900, from 300 to below 500,
    from 100 to below 300.  So every kept sample is in one list only. *)
Theorem scatter_get_data_by_band :
  exists b0 b1 b2 b3 : list coord,
    Scatter.get_data source material vt = Returns [b0; b1; b2; b3] /\
    (forall (i : nat) (x y : Z) (c : Q),
       In (x, y, c) (nth i [b0; b1; b2; b3] []) <->
       on_grid_x x /\ on_half_y y /\
       calc_concentration source material (well_at x y) vt = Returns c /\
       band_bounds i c) /\
    (forall (i j : nat) (s : coord),
       In s (nth i [b0; b1; b2; b3] []) -> In s (nth j [b0; b1; b2; b3] []) ->
       i = j).
Proof.
  destruct scatter_get_data_bands as (b0 & b1 & b2 & b3 & E & K).
  exists b0, b1, b2, b3. split; [exact E|]. split.
  - intros i x y c. rewrite K, in_half_samples. unfold coord_con. simpl snd.
    split.
    + intros ((Hx & Hy & Ec) & B).
      split; [exact Hx | split; [exact Hy | split; [|exact B]]].
      now apply calc_on_full_grid.
    + intros (Hx & Hy & Ec & B).
      split; [|exact B]. split; [exact Hx | split; [exact Hy|]].
      now apply calc_on_full_grid in Ec.
  - intros i j s Ki Kj. apply K in Ki. apply K in Kj.
    destruct Ki as (_ & Bi). destruct Kj as (_ & Bj).
    destruct i as [|[|[|[|i]]]]; destruct j as [|[|[|[|j]]]];
      simpl in Bi, Bj; try reflexivity; exfalso; try lra; tauto.
Qed.

End Bands.

(** ** The lookup of the scatter script *)

Lemma find_append {A : Type} (f : A -> bool) (l l' : list A) :
  find f (l ++ l') = match find f l with Some a => Some a | None => find f l' end.
Proof.
  induction l as [|a l IH]; simpl; [reflexivity|].
  now destruct (f a).
Qed.

Lemma search_band_find (use_set : list Z) (d : list coord) :
  Scatter.search_band use_set d
  = option_map coord_con (find (Scatter.issubset use_set) d).
Proof.
  induction d as [|s d IH]; simpl; [reflexivity|].
  now destruct (Scatter.issubset use_set s).
Qed.

(** X6. The two nested loops of [get_specific_concentration] of
    [2D_contaminant_plot.py] return the concentration of the first sample, in
    the order of the bands and then of each list, whose three items include
    both requested numbers; [None] when there is none.  A sample recorded at
    the requested coordinates is such a sample, so the result is then not
    [None]. *)
Theorem scatter_lookup_first_match (x y : Z) (data : list (list coord)) :
  Scatter.get_specific_concentration x y data
  = option_map coord_con (find (Scatter.issubset [x; y]) (concat data)) /\
  (forall c : Q,
     In (x, y, c) (concat data) ->
     Scatter.get_specific_concentration x y data <> None).
Proof.
  assert (E : Scatter.get_specific_concentration x y data
              = option_map coord_con (find (Scatter.issubset [x; y]) (concat data))).
  { induction data as [|d data IH]; simpl; [reflexivity|].
    rewrite find_append, search_band_find, IH.
    now destruct (find (Scatter.issubset [x; y]) d). }
  split; [exact E|].
  intros c I. rewrite E.
  destruct (find (Scatter.issubset [x; y]) (concat data)) eqn:F; [discriminate|].
  apply (find_none _ _ F) in I.
  unfold Scatter.issubset, Scatter.item_in, coord_x, coord_y in I. simpl in I.
  rewrite !Z.eqb_refl in I. simpl in I. rewrite orb_true_r in I. discriminate.
Qed.

(** ** The scatter plot *)

Lemma collect_no_empty (coordinates : list (list coord)) :
  ~ In [] coordinates ->
  forall all_x all_y : list (list Z),
    ScatterPlot.collect coordinates all_x all_y
    = inr (all_x ++ map (map coord_x) coordinates,
           all_y ++ map (map coord_y) coordinates).
Proof.
  induction coordinates as [|b rest IH]; intros N all_x all_y; simpl.
  - now rewrite !app_nil_r.
  - destruct b as [|s b]; [exfalso; apply N; now left|].
    cbn [ScatterPlot.unpack]. rewrite IH by (intros K; apply N; now right).
    now rewrite <- !app_assoc.
Qed.

Lemma collect_empty (coordinates : list (list coord)) :
  In [] coordinates ->
  forall all_x all_y : list (list Z),
    ScatterPlot.collect coordinates all_x all_y = inl ScatterPlot.ValueError.
Proof.
  induction coordinates as [|b rest IH]; intros I all_x all_y; [destruct I|].
  simpl. destruct b as [|s b]; [reflexivity|].
  cbn [ScatterPlot.unpack]. apply IH.
  destruct I as [E | I]; [discriminate | exact I].
Qed.

Lemma create_plot_outcome_empty (coordinates : list (list coord)) :
  (In [] coordinates ->
   ScatterPlot.create_plot coordinates = inl ScatterPlot.ValueError) /\
  (~ In [] coordinates ->
   ScatterPlot.create_plot coordinates
   = ScatterPlot.scatter_calls (seq 0 4) (map (map coord_x) coordinates)
       (map (map coord_y) coordinates)).
Proof.
  unfold ScatterPlot.create_plot. split.
  - intros I. now rewrite collect_empty.
  - intros N. now rewrite collect_no_empty by exact N.
Qed.

(** X7. [create_plot] of [2D_contaminant_plot.py] raises [ValueError] as soon
    as one band has no sample, whatever the other bands hold.  With no empty
    band it raises [IndexError] when there are fewer than four bands, and
    otherwise draws the first four bands, in this order, in red, orange,
    yellow and green under the labels 901+, 501-900, 301-500 and 100-300, each
    with the coordinates of all the samples of its band. *)
Theorem create_plot_outcome (coordinates : list (list coord)) :
  (In [] coordinates ->
   ScatterPlot.create_plot coordinates = inl ScatterPlot.ValueError) /\
  (~ In [] coordinates -> (length coordinates < 4)%nat ->
   ScatterPlot.create_plot coordinates = inl ScatterPlot.IndexError) /\
  (~ In [] coordinates ->
   forall (b0 b1 b2 b3 : list coord) (rest : list (list coord)),
     coordinates = b0 :: b1 :: b2 :: b3 :: rest ->
     ScatterPlot.create_plot coordinates
     = inr [ScatterPlot.mkSeries (map coord_x b0) (map coord_y b0) "red"%string "901+"%string;
            ScatterPlot.mkSeries (map coord_x b1) (map coord_y b1) "orange"%string "501-900"%string;
            ScatterPlot.mkSeries (map coord_x b2) (map coord_y b2) "yellow"%string "301-500"%string;
            ScatterPlot.mkSeries (map coord_x b3) (map coord_y b3) "green"%string "100-300"%string]).
Proof.
  unfold ScatterPlot.create_plot. split; [|split].
  - intros I. now rewrite collect_empty.
  - intros N L. rewrite collect_no_empty by exact N.
    destruct coordinates as [|b0 [|b1 [|b2 [|b3 rest]]]]; try reflexivity.
    simpl in L. lia.
  - intros N b0 b1 b2 b3 rest ->. rewrite collect_no_empty by exact N.
    reflexivity.
Qed.

Section PlotField.
Context `{Special}.
Variables (source : Source) (material : Material) (vt : Q).
Hypothesis vt_pos : 0 < vt.
Hypothesis ax_pos : 0 < ax material.
Hypothesis ay_pos : 0 < ay material.

(** X8. With a source concentration between 0 and 899.995, no grid point
    reaches 900, the list [over_900] stays empty, and [create_plot] of
    [2D_contaminant_plot.py] on the reflected field raises [ValueError]: the
    script cannot draw its plot for such a source. *)
Theorem scatter_plot_needs_strong_source :
  0 <= concentration source -> concentration source + (1 # 200) < 900 ->
  exists data : list (list coord),
    Scatter.get_data source material vt = Returns data /\
    ScatterPlot.create_plot (Scatter.get_all_coord data)
    = inl ScatterPlot.ValueError.
Proof.
  intros Hs Hweak.
  destruct (scatter_get_data_bands source material vt vt_pos ax_pos ay_pos)
    as (b0 & b1 & b2 & b3 & E & K).
  eexists. split; [exact E|].
  assert (E0 : b0 = []).
  { destruct b0 as [|[[x y] c] b0]; [reflexivity | exfalso].
    destruct (proj1 (K 0%nat (x, y, c)) (or_introl eq_refl)) as (I & B).
    apply in_half_samples in I. destruct I as (_ & _ & ->).
    pose proof (grid_concentration_le source material vt x y Hs) as L.
    simpl in B. lra. }
  subst b0.
  apply (proj1 (create_plot_outcome_empty _)). now left.
Qed.

End PlotField.

(** ** The query of the contour script *)

Lemma prompt_some (valid : Z -> bool) (typed : list Z) (v : Z) (rest : list Z) :
  Contour.prompt valid typed = Some (v, rest) ->
  valid v = true /\
  exists skipped : list Z,
    typed = skipped ++ v :: rest /\ Forall (fun s => valid s = false) skipped.
Proof.
  induction typed as [|t typed IH]; simpl; [discriminate|].
  destruct (valid t) eqn:V.
  - intros [= -> ->]. split; [exact V|]. now exists [].
  - intros E. destruct (IH E) as (Vv & skipped & -> & F).
    split; [exact Vv|]. exists (t :: skipped). split; [reflexivity|].
    now constructor.
Qed.

Lemma prompt_none (valid : Z -> bool) (typed : list Z) :
  Contour.prompt valid typed = None <-> Forall (fun s => valid s = false) typed.
Proof.
  induction typed as [|t typed IH]; simpl.
  - split; [constructor | reflexivity].
  - destruct (valid t) eqn:V.
    + split; [discriminate|]. intros F. inversion F; congruence.
    + rewrite IH. split; [now constructor | intros F; now inversion F].
Qed.

(** X9. Each input loop of [get_specific_concentration] of [graph-final.py]
    takes the first valid entry: the entries typed before it are exactly the
    invalid ones it rejected, and the loop goes on to the end of the input
    when no entry is valid. *)
Theorem prompt_first_valid (valid : Z -> bool) (typed : list Z) :
  match Contour.prompt valid typed with
  | Some (v, rest) =>
      valid v = true /\
      exists skipped : list Z,
        typed = skipped ++ v :: rest /\ Forall (fun s => valid s = false) skipped
  | None => Forall (fun s => valid s = false) typed
  end.
Proof.
  destruct (Contour.prompt valid typed) as [[v rest]|] eqn:E.
  - now apply prompt_some.
  - now apply prompt_none.
Qed.

Lemma valid_x_on_grid (x : Z) :
  Contour.valid_x x = true <-> Z.even x = true /\ (2 <= x <= 400)%Z.
Proof.
  unfold Contour.valid_x.
  rewrite !andb_true_iff, Z.eqb_eq, !Z.leb_le, Z.even_spec.
  split.
  - intros ((M & L) & U). split; [|lia].
    exists (x / 2)%Z. pose proof (Z.div_mod x 2). lia.
  - intros ((k & ->) & L). split; [split|]; try lia.
    rewrite Z.mul_comm. apply Z_mod_mult.
Qed.

Lemma valid_y_on_grid (y : Z) :
  Contour.valid_y y = true <-> (-200 <= y <= 200)%Z.
Proof.
  unfold Contour.valid_y. rewrite andb_true_iff, !Z.leb_le. tauto.
Qed.

Lemma contour_get_specific_concentration_some
  (data : list coord) (typed : list Z) (printed : Q) (x y : Z) :
  Contour.get_specific_concentration data typed = Some (printed, (x, y)) ->
  Contour.valid_x x = true /\ Contour.valid_y y = true /\
  printed = Contour.find_concentration x y data.
Proof.
  unfold Contour.get_specific_concentration.
  destruct (Contour.prompt Contour.valid_x typed) as [[ux rest]|] eqn:Px;
    [|discriminate].
  destruct (Contour.prompt Contour.valid_y rest) as [[uy rest']|] eqn:Py;
    [|discriminate].
  intros [= <- <- <-]. apply prompt_some in Px. destruct Px as (Vx & _).
  apply prompt_some in Py. destruct Py as (Vy & _).
  now repeat split.
Qed.

Section Query.
Context `{Special}.
Variables (source : Source) (material : Material) (vt : Q).
Hypothesis vt_pos : 0 < vt.
Hypothesis ax_pos : 0 < ax material.
Hypothesis ay_pos : 0 < ay material.

(** X10. In [graph-final.py], whatever integers are typed, when
    [get_specific_concentration] on the [tri_data] of [get_data] comes to an
    answer, the point it returns has an even x in 2..400 and a y in -200..200,
    and the concentration it prints is what [calc_concentration] returns at
    that point converted to meters. *)
Theorem contour_query_end_to_end :
  exists (cols : Contour.columns) (tri : list coord),
    Contour.get_data source material vt = Returns (cols, tri) /\
    forall (typed : list Z) (printed : Q) (x y : Z),
      Contour.get_specific_concentration tri typed = Some (printed, (x, y)) ->
      (Z.even x = true /\ (2 <= x <= 400)%Z /\ (-200 <= y <= 200)%Z) /\
      calc_concentration source material (well_at x y) vt = Returns printed.
Proof.
  do 2 eexists.
  split; [apply (contour_get_data source material vt vt_pos ax_pos ay_pos)|].
  intros typed printed x y E.
  apply contour_get_specific_concentration_some in E.
  destruct E as (Vx & Vy & ->).
  apply valid_x_on_grid in Vx. apply valid_y_on_grid in Vy.
  destruct Vx as (Ev & Rx).
  assert (Gx : on_grid_x x) by (split; [lia | exact Ev]).
  split; [tauto|].
  rewrite contour_lookup_on_grid by (trivial; exact Vy).
  now apply calc_on_grid.
Qed.

End Query.

(** X11. The search of [graph-final.py] compares the requested x with the
    first item of a sample and [abs(y)] with the second.  When several samples
    match, the last one in the data gives the result; when none matches the
    result is 0; and a query at [-y] gives the result of the query at [y]. *)
Theorem contour_search_last_match (x y : Z) :
  (forall (before after : list coord) (s : coord),
     coord_x s = x -> coord_y s = Z.abs y ->
     (forall t, In t after -> ~ (coord_x t = x /\ coord_y t = Z.abs y)) ->
     Contour.find_concentration x y (before ++ s :: after) = coord_con s) /\
  (forall data : list coord,
     (forall t, In t data -> ~ (coord_x t = x /\ coord_y t = Z.abs y)) ->
     Contour.find_concentration x y data = 0) /\
  (forall data : list coord,
     Contour.find_concentration x (- y) data = Contour.find_concentration x y data).
Proof.
  assert (Miss : forall (data : list coord) (init : Q),
             (forall t, In t data -> ~ (coord_x t = x /\ coord_y t = Z.abs y)) ->
             fold_left (fun user_con pair =>
                          if (x =? coord_x pair)%Z && (Z.abs y =? coord_y pair)%Z
                          then coord_con pair else user_con) data init = init).
  { induction data as [|t data IH]; intros init N; [reflexivity|].
    simpl. rewrite IH by (intros t' I; apply N; now right).
    destruct (Z.eqb_spec x (coord_x t)) as [Ex|]; [|reflexivity].
    destruct (Z.eqb_spec (Z.abs y) (coord_y t)) as [Ey|]; [|reflexivity].
    exfalso. apply (N t); [now left | now split]. }
  split; [|split].
  - intros before after s Ex Ey N. unfold Contour.find_concentration.
    rewrite fold_left_app. cbn [fold_left]. rewrite Miss by exact N.
    now rewrite Ex, Ey, !Z.eqb_refl.
  - intros data N. now apply Miss.
  - intros data. unfold Contour.find_concentration. now rewrite Z.abs_opp.
Qed.

(** ** The order and the number of the samples *)

Lemma range_NoDup (start stop step : Z) :
  (0 < step)%Z -> NoDup (range start stop step).
Proof.
  intros Hs. unfold range. apply NoDup_map_NoDup_ForallPairs.
  - intros a b _ _ E. nia.
  - apply seq_NoDup.
Qed.

Lemma pairs_NoDup {A B : Type} (xs : list A) (ys : list B) :
  NoDup xs -> NoDup ys ->
  NoDup (flat_map (fun x => map (fun y => (x, y)) ys) xs).
Proof.
  intros Nx Ny. induction Nx as [|x xs Nin Nx IH]; simpl; [constructor|].
  apply NoDup_app.
  - apply NoDup_map_NoDup_ForallPairs; [|exact Ny].
    intros a b _ _ E. now inversion E.
  - exact IH.
  - intros [a b] I J. apply in_map_iff in I. destruct I as (y & E & _).
    inversion E; subst. apply in_flat_map in J. destruct J as (x' & Ix & J).
    apply in_map_iff in J. destruct J as (y' & E' & _).
    inversion E'; subst. contradiction.
Qed.

Lemma half_grid_NoDup : NoDup half_grid.
Proof. apply pairs_NoDup; apply range_NoDup; lia. Qed.

Lemma pairs_length {A B : Type} (xs : list A) (ys : list B) :
  length (flat_map (fun x => map (fun y => (x, y)) ys) xs)
  = (length xs * length ys)%nat.
Proof.
  induction xs as [|x xs IH]; simpl; [reflexivity|].
  now rewrite length_app, length_map, IH.
Qed.

Lemma half_grid_length : Z.of_nat (length half_grid) = 45024%Z.
Proof.
  unfold half_grid. rewrite pairs_length. unfold range.
  rewrite !length_map, !length_seq, Nat2Z.inj_mul. reflexivity.
Qed.

Section Count.
Context `{Special}.
Variables (source : Source) (material : Material) (vt : Q).
Hypothesis vt_pos : 0 < vt.
Hypothesis ax_pos : 0 < ax material.
Hypothesis ay_pos : 0 < ay material.

(** X12. In [graph-final.py], [tri_data] lists the half-plane grid points in
    the order of the two loops (x outer, y inner), each point once: 45024
    samples; the three columns run in the same order, and after the
    reflection each has 90048 entries. *)
Theorem contour_one_sample_per_point :
  exists (x_data y_data : list Z) (con_data : list Q) (tri : list coord),
    Contour.get_data source material vt = Returns ((x_data, y_data, con_data), tri) /\
    map (fun s => (coord_x s, coord_y s)) tri = half_grid /\
    NoDup (map (fun s => (coord_x s, coord_y s)) tri) /\
    Z.of_nat (length tri) = 45024%Z /\
    combine (combine x_data y_data) con_data = tri /\
    exists all_x all_y all_z,
      Contour.get_all_coord (x_data, y_data, con_data) = (all_x, all_y, all_z) /\
      Z.of_nat (length all_x) = 90048%Z /\ Z.of_nat (length all_y) = 90048%Z /\
      Z.of_nat (length all_z) = 90048%Z.
Proof.
  do 4 eexists.
  split; [apply (contour_get_data source material vt vt_pos ax_pos ay_pos)|].
  assert (K : map (fun s => (coord_x s, coord_y s))
                (map (grid_sample source material vt) half_grid) = half_grid).
  { rewrite map_map. rewrite <- (map_id half_grid) at 2.
    apply map_ext. now intros [x y]. }
  split; [exact K|]. split; [rewrite K; apply half_grid_NoDup|].
  pose proof half_grid_length as L.
  split; [now rewrite length_map|].
  split; [apply combine_maps|].
  unfold Contour.get_all_coord. rewrite contour_reflect.
  do 3 eexists. split; [reflexivity|].
  rewrite !length_app, !length_map. lia.
Qed.

End Count.

(** ** The further properties at concrete inputs *)

Lemma spread_x_positive_decreasing_witness :
  exists a b : Q,
    spread_x_positive (H := sample_special) material_1
      (mkWell (ft_to_m 50) 0) velocity_time = Returns a /\
    spread_x_positive (H := sample_special) material_1
      (mkWell (ft_to_m 100) (ft_to_m 20)) velocity_time = Returns b /\
    0 <= b /\ b <= a /\ a <= 2.
Proof.
  apply (@spread_x_positive_decreasing sample_special material_1 velocity_time
           (ft_to_m 50) (ft_to_m 100) 0 (ft_to_m 20)).
  - reflexivity.
  - vm_compute. discriminate.
Defined.

Lemma calc_concentration_bounded_witness :
  exists c : Q,
    calc_concentration (H := sample_special) source_1 material_1 (well_at 50 0)
      velocity_time = Returns c /\
    0 <= c /\ c <= concentration source_1 + (1 # 200).
Proof.
  apply (@calc_concentration_bounded sample_special source_1 material_1
           (well_at 50 0) velocity_time); try reflexivity.
  vm_compute. discriminate.
Defined.

Lemma convert_to_volume_monotone_witness :
  float (convert_to_volume source_1 (1 # 10))
  <= float (convert_to_volume source_1 (2 # 10)).
Proof.
  apply (convert_to_volume_monotone source_1 (1 # 10) (2 # 10));
    vm_compute; discriminate.
Defined.

Lemma scatter_get_data_by_band_witness :
  exists b0 b1 b2 b3 : list coord,
    Scatter.get_data (H := sample_special) source_1 material_1 velocity_time
    = Returns [b0; b1; b2; b3] /\
    forall (x y : Z) (c : Q), In (x, y, c) b1 -> 500 <= c /\ c < 900.
Proof.
  destruct (@scatter_get_data_by_band sample_special source_1 material_1
              velocity_time eq_refl eq_refl eq_refl)
    as (b0 & b1 & b2 & b3 & E & K & _).
  exists b0, b1, b2, b3. split; [exact E|].
  intros x y c I. apply (K 1%nat x y c) in I. exact (proj2 (proj2 (proj2 I))).
Defined.

Lemma create_plot_outcome_witness :
  ScatterPlot.create_plot [[(2%Z, 0%Z, 950)]; []; [(4%Z, 0%Z, 350)]; []]
  = inl ScatterPlot.ValueError /\
  ScatterPlot.create_plot [[(2%Z, 0%Z, 950)]; [(4%Z, 1%Z, 600)]]
  = inl ScatterPlot.IndexError.
Proof.
  split.
  - apply (proj1 (create_plot_outcome _)). right. left. reflexivity.
  - apply (proj1 (proj2 (create_plot_outcome _))).
    + intros [E | [E | []]]; discriminate.
    + simpl. lia.
Defined.

Lemma scatter_plot_needs_strong_source_witness :
  exists data : list (list coord),
    Scatter.get_data (H := sample_special) weak_source material_1 velocity_time
    = Returns data /\
    ScatterPlot.create_plot (Scatter.get_all_coord data)
    = inl ScatterPlot.ValueError.
Proof.
  apply (@scatter_plot_needs_strong_source sample_special weak_source material_1
           velocity_time eq_refl eq_refl eq_refl).
  - vm_compute. discriminate.
  - reflexivity.
Defined.

Lemma contour_query_end_to_end_witness :
  exists (cols : Contour.columns) (tri : list coord),
    Contour.get_data (H := sample_special) source_1 material_1 velocity_time
    = Returns (cols, tri) /\
    Contour.get_specific_concentration tri [3; 500; 50; 300; -7]%Z
    = Some (Contour.find_concentration 50 (-7) tri, (50, -7)%Z) /\
    calc_concentration (H := sample_special) source_1 material_1
      (well_at 50 (-7)) velocity_time
    = Returns (Contour.find_concentration 50 (-7) tri).
Proof.
  destruct (@contour_query_end_to_end sample_special source_1 material_1
              velocity_time eq_refl eq_refl eq_refl) as (cols & tri & E & K).
  exists cols, tri. split; [exact E|]. split; [reflexivity|].
  apply (K [3; 500; 50; 300; -7]%Z _ 50%Z (-7)%Z). reflexivity.
Defined.

Lemma contour_one_sample_per_point_witness :
  exists (cols : Contour.columns) (tri : list coord),
    Contour.get_data (H := sample_special) source_1 material_1 velocity_time
    = Returns (cols, tri) /\
    Z.of_nat (length tri) = 45024%Z.
Proof.
  destruct (@contour_one_sample_per_point sample_special source_1 material_1
              velocity_time eq_refl eq_refl eq_refl)
    as (x_data & y_data & con_data & tri & E & _ & _ & L & _).
  exists (x_data, y_data, con_data), tri. split; [exact E | exact L].
Defined.
